(** * ANF-AIOps: the MCP façade over Azure NetApp Files

    A shallow embedding of the FastAPI routers ([mcp_server/routers/pools.py],
    [mcp_server/routers/accounts.py] and their [anf_aiops_complete] /
    [anf_aiops_full] copies), of the application modules ([mcp_server/app.py],
    [mcp-server/app.py]) and of the thin HTTP client
    ([sdk/azure_netapp_mcp_client/client.py]).

    As shipped, [mcp_server/routers/pools.py] does not parse (its first line
    is a docstring whose quotes are backslash-escaped), so that module, and
    the application of [mcp_server/app.py] that imports it, never load; its
    handlers are transcribed from the text of the file all the same, next to
    the copy of [anf_aiops_complete], which does load.

    The Azure management SDK, the [requests] transport and the JSON decoder
    are collaborators that live outside the repository: they are oracles
    (records of functions, Section variables) and every interaction with
    them is recorded in a trace, so that "how many calls were issued" is a
    statement about that trace. *)

From stdpp Require Import gmap strings list fin_maps pretty.
From Stdlib Require Import ZArith Ascii.

Set Warnings "-register-all".
Local Open Scope Z_scope.

(** ** Python values *)

(** JSON-shaped Python values: what handlers return and what they hand to
    the SDK. A [dict] is a finite map with string keys. *)
Inductive Json : Type :=
| JNone
| JBool (b : bool)
| JInt (n : Z)
| JStr (s : string)
| JList (l : list Json)
| JDict (d : gmap string Json).

(** A dict display [{k1: v1, ...}]. *)
Definition dict (kvs : list (string * Json)) : Json :=
  JDict (list_to_map kvs).

(** [j[key]] when [j] is a dict that has [key]. *)
Definition get (j : Json) (key : string) : option Json :=
  match j with
  | JDict d => d !! key
  | _ => None
  end.

(** Truthiness, as [if x:] and [x or y] see it: [None], [0], [""] and
    [{}] are false. *)
Definition truthy_int (o : option Z) : bool :=
  match o with
  | Some n => negb (n =? 0)
  | None => false
  end.

Definition truthy_str (o : option string) : bool :=
  match o with
  | Some s => negb (String.eqb s "")
  | None => false
  end.

Definition truthy_dict (o : option (gmap string Json)) : bool :=
  match o with
  | Some d => negb (Nat.eqb (size d) 0)
  | None => false
  end.

(** [a or b] where [a] is an optional string and [b] a string. *)
Definition or_else (a : option string) (b : string) : string :=
  match a with
  | Some s => if truthy_str (Some s) then s else b
  | None => b
  end.

(** [s.rstrip(c)] for a single character [c]. *)
Fixpoint rstrip (c : Ascii.ascii) (s : string) : string :=
  match s with
  | EmptyString => EmptyString
  | String a rest =>
      match rstrip c rest with
      | EmptyString => if Ascii.eqb a c then EmptyString else String a EmptyString
      | kept => String a kept
      end
  end.

(** The line feed character. *)
Definition LF : string := String (Ascii.ascii_of_nat 10) EmptyString.

(** [re.match("^(a1|...|an)$", s)] for literal alternatives. In Python's
    [re], [$] matches at the end of the string and also just before a
    newline that ends the string. *)
Definition re_match_alternatives (alternatives : list string) (s : string) : bool :=
  existsb (λ a, String.eqb s a || String.eqb s (a +:+ LF)) alternatives.

(** [os.environ], and [os.getenv(key)] / [os.getenv(key, default)]. *)
Definition getenv (environ : gmap string string) (key : string) : option string :=
  environ !! key.

Definition getenv_default (environ : gmap string string) (key fallback : string) : string :=
  default fallback (environ !! key).

(** ** Effects: a trace of collaborator interactions, and exceptions *)

(** A computation appends events of type [E] to a trace and either returns
    a value or raises an exception of type [X]. *)
Definition M (E X A : Type) : Type := list E → (X + A) * list E.

Section Effects.
Context {E X : Type}.

#[export] Instance M_ret : MRet (M E X) := λ A (a : A) tr, (inr a, tr).

#[export] Instance M_bind : MBind (M E X) := λ A B (k : A → M E X B) (m : M E X A) tr,
  match m tr with
  | (inl x, tr') => (inl x, tr')
  | (inr a, tr') => k a tr'
  end.

Definition raise {A} (x : X) : M E X A := λ tr, (inl x, tr).

Definition emit (e : E) : M E X unit := λ tr, (inr tt, tr ++ [e]).

(** [try: m  except ...: h]: [h x] is [None] when no [except] clause
    matches [x], which then propagates. *)
Definition try_except {A} (m : M E X A) (h : X → option (M E X A)) : M E X A :=
  λ tr, match m tr with
        | (inl x, tr') =>
            match h x with
            | Some k => k tr'
            | None => (inl x, tr')
            end
        | (inr a, tr') => (inr a, tr')
        end.

(** A value or exception computed by a collaborator. *)
Definition lift {A} (r : X + A) : M E X A := λ tr, (r, tr).

Definition run {A} (m : M E X A) : (X + A) * list E := m [].
End Effects.

(** ** The collaborator: [azure.mgmt.netapp.NetAppManagementClient] *)

(** [azure.core.exceptions.HttpResponseError], with the two attributes the
    routers read. *)
Record HttpResponseError := {
  err_status_code : Z;
  err_message : string
}.

(** An SDK model object; the routers only ever call [.as_dict()] on it. *)
Record Model := { as_dict : Json }.

(** The poller returned by a [begin_*] call, with the two methods the
    routers call on it. [result] is what [.result()] yields once the
    long-running operation is terminal: the final resource or the failure. *)
Record LROPoller := {
  polling_url : string;
  result : HttpResponseError + Model
}.

(** The SDK operations the routers invoke, with their arguments. The
    resource group is whatever [os.getenv] produced, possibly [None]. *)
Inductive Operation :=
| accounts_list (resource_group : option string)
| accounts_begin_create_or_update (resource_group : option string) (account_name : string) (body : Json)
| accounts_begin_delete (resource_group : option string) (account_name : string)
| pools_list (resource_group : option string) (account_name : string)
| pools_begin_create_or_update (resource_group : option string) (account_name pool_name : string) (body : Json)
| pools_begin_delete (resource_group : option string) (account_name pool_name : string).

(** The control plane as an oracle: how it answers each operation. *)
Record NetAppManagementClient := {
  list_items : Operation → HttpResponseError + list Model;
  begin_operation : Operation → HttpResponseError + LROPoller
}.

Definition is_mutating (op : Operation) : bool :=
  match op with
  | accounts_list _ | pools_list _ _ => false
  | _ => true
  end.

(** What a handler does to the outside world. *)
Inductive Event :=
| EvClient (subscription_id : option string)  (* NetAppManagementClient(DefaultAzureCredential(), SUBSCRIPTION_ID) *)
| EvCall (op : Operation)                      (* a request to the control plane *)
| EvResult                                     (* poller.result(): blocks until terminal *)
| EvPollingUrl.                                (* poller.polling_url() *)

(** Exceptions that travel through a FastAPI endpoint. *)
Inductive Exn :=
| SdkError (err : HttpResponseError)
| HTTPException (status_code : Z) (detail : string)
| RequestValidationError.

Abbreviation Handler := (M Event Exn).

Definition is_call (e : Event) : bool :=
  match e with EvCall _ => true | _ => false end.

Definition is_mutating_call (e : Event) : bool :=
  match e with EvCall op => is_mutating op | _ => false end.

Definition is_result (e : Event) : bool :=
  match e with EvResult => true | _ => false end.

Definition external_calls (tr : list Event) : nat := length (List.filter is_call tr).
Definition mutating_calls (tr : list Event) : nat := length (List.filter is_mutating_call tr).
Definition waited (tr : list Event) : bool := existsb is_result tr.

(** The SDK surface, instrumented. *)
Definition sdk_list (c : NetAppManagementClient) (op : Operation) : Handler (list Model) :=
  emit (EvCall op);; lift (sum_map SdkError id (list_items c op)).

Definition sdk_begin (c : NetAppManagementClient) (op : Operation) : Handler LROPoller :=
  emit (EvCall op);; lift (sum_map SdkError id (begin_operation c op)).

Definition poller_result (p : LROPoller) : Handler Model :=
  emit EvResult;; lift (sum_map SdkError id (result p)).

Definition poller_polling_url (p : LROPoller) : Handler string :=
  emit EvPollingUrl;; mret (polling_url p).

(** [except HttpResponseError as err: raise f(err)] *)
Definition except_HttpResponseError {A} (f : HttpResponseError → Exn) (x : Exn) : option (Handler A) :=
  match x with
  | SdkError err => Some (raise (f err))
  | _ => None
  end.

(** ** The web framework, as far as the routes rely on it *)

(** A parameter declared [Header(...)] is required: when the header is
    missing FastAPI answers with a request-validation error and does not
    call the dependency. *)
Definition Header_required (value : option string) : Handler string :=
  match value with
  | Some v => mret v
  | None => raise RequestValidationError
  end.

(** [Depends(verify_key)], where [verify_key(x_api_key: str = Header(...))]. *)
Definition Depends (verify_key : string → Handler unit) (x_api_key : option string) : Handler unit :=
  key ← Header_required x_api_key; verify_key key.

(** Status line of the response: the route's [status_code] when the
    endpoint returns, the exception's own code for an [HTTPException], 422
    for a request-validation error, 500 for anything unhandled. *)
Definition response_status (route_status : Z) (r : Exn + Json) : Z :=
  match r with
  | inr _ => route_status
  | inl (HTTPException status_code _) => status_code
  | inl RequestValidationError => 422
  | inl (SdkError _) => 500
  end.

(** 1024 ** 4 *)
Definition TiB : Z := 1024 ^ 4.

(** ** [mcp_server/]: the application and its two routers *)

Module McpServer.

Module Pools.

(** Line 1 of the file is a backslash followed by a quote, outside any
    string: importing the module raises [SyntaxError], in every
    environment. *)
Definition import_raises : bool := true.

Section WithProcess.
Variable environ : gmap string string.
Variable azure : NetAppManagementClient.

Definition SUBSCRIPTION_ID : option string := getenv environ "AZURE_SUBSCRIPTION_ID".
Definition RESOURCE_GROUP : option string := getenv environ "AZURE_RESOURCE_GROUP".
Definition API_KEY : string := getenv_default environ "MCP_API_KEY" "changeme".

Definition verify_key (x_api_key : string) : Handler unit :=
  if bool_decide (x_api_key ≠ API_KEY)
  then raise (HTTPException 401 "Invalid API Key")
  else mret tt.

Definition client : Handler NetAppManagementClient :=
  emit (EvClient SUBSCRIPTION_ID);; mret azure.

Definition sdk_error (err : HttpResponseError) : Exn :=
  HTTPException (err_status_code err) (err_message err).

(** The DTO. Its fields carry descriptions only: no constraint. *)
Record PoolBody := {
  account : string;
  pool : string;
  location : string;
  size_tb : Z;
  service_level : string
}.

Definition list_pools (account : string) : Handler Json :=
  try_except
    (c ← client;
     pools ← sdk_list c (pools_list RESOURCE_GROUP account);
     mret (JList (as_dict <$> pools)))
    (except_HttpResponseError sdk_error).

Definition create_pool (body : PoolBody) (wait : bool) : Handler Json :=
  try_except
    (let params := dict [("location", JStr (location body));
                         ("sku", dict [("name", JStr (service_level body))]);
                         ("size", JInt (size_tb body * TiB))] in
     c ← client;
     poller ← sdk_begin c (pools_begin_create_or_update RESOURCE_GROUP (account body) (pool body) params);
     if wait
     then r ← poller_result poller; mret (as_dict r)
     else url ← poller_polling_url poller; mret (dict [("operation", JStr url)]))
    (except_HttpResponseError sdk_error).

Definition update_pool (account pool : string) (new_size_tb : option Z)
    (service_level : option string) (wait : bool) : Handler Json :=
  if bool_decide (new_size_tb = None) && bool_decide (service_level = None)
  then raise (HTTPException 400 "Specify new_size_tb or service_level")
  else
    let body : gmap string Json := ∅ in
    let body := match new_size_tb with
                | Some n => if truthy_int (Some n) then <["size" := JInt (n * TiB)]> body else body
                | None => body
                end in
    let body := match service_level with
                | Some sl => if truthy_str (Some sl) then <["sku" := dict [("name", JStr sl)]]> body else body
                | None => body
                end in
    try_except
      (c ← client;
       poller ← sdk_begin c (pools_begin_create_or_update RESOURCE_GROUP account pool (JDict body));
       if wait
       then r ← poller_result poller; mret (as_dict r)
       else url ← poller_polling_url poller; mret (dict [("operation", JStr url)]))
      (except_HttpResponseError sdk_error).

Definition delete_pool (account pool : string) (wait : bool) : Handler Json :=
  try_except
    (c ← client;
     poller ← sdk_begin c (pools_begin_delete RESOURCE_GROUP account pool);
     if wait
     then poller_result poller;; mret (dict [("status", JStr "deleted")])
     else url ← poller_polling_url poller; mret (dict [("operation", JStr url)]))
    (except_HttpResponseError sdk_error).

End WithProcess.
End Pools.

Module Accounts.
Section WithProcess.
Variable environ : gmap string string.
Variable azure : NetAppManagementClient.

Definition SUBSCRIPTION_ID : option string := getenv environ "AZURE_SUBSCRIPTION_ID".
Definition RESOURCE_GROUP : option string := getenv environ "AZURE_RESOURCE_GROUP".

(** [if not SUBSCRIPTION_ID or not RESOURCE_GROUP: raise RuntimeError(...)]
    at import time. *)
Definition import_raises : bool :=
  negb (truthy_str SUBSCRIPTION_ID) || negb (truthy_str RESOURCE_GROUP).

Definition API_KEY : string := getenv_default environ "MCP_API_KEY" "changeme".

Definition verify_key (x_api_key : string) : Handler unit :=
  if bool_decide (x_api_key ≠ API_KEY)
  then raise (HTTPException 401 "Invalid API Key")
  else mret tt.

Definition get_netapp_client : Handler NetAppManagementClient :=
  emit (EvClient SUBSCRIPTION_ID);; mret azure.

Record AccountCreateBody := {
  name : string;
  location : string;
  active_directory : option (gmap string Json)
}.

Definition sdk_error (err : HttpResponseError) : Exn :=
  HTTPException (err_status_code err) (err_message err).

Definition list_accounts : Handler Json :=
  try_except
    (c ← get_netapp_client;
     accounts ← sdk_list c (accounts_list RESOURCE_GROUP);
     mret (JList (as_dict <$> accounts)))
    (except_HttpResponseError sdk_error).

Definition create_account (body : AccountCreateBody) (wait : bool) : Handler Json :=
  try_except
    (c ← get_netapp_client;
     poller ← sdk_begin c
       (accounts_begin_create_or_update RESOURCE_GROUP (name body)
          (dict [("location", JStr (location body));
                 ("properties",
                  dict [("activeDirectories",
                         match active_directory body with
                         | Some ad => if truthy_dict (Some ad) then JList [JDict ad] else JList []
                         | None => JList []
                         end)])]));
     if wait
     then r ← poller_result poller; mret (as_dict r)
     else url ← poller_polling_url poller; mret (dict [("operation", JStr url)]))
    (except_HttpResponseError sdk_error).

Definition delete_account (account_name : string) (wait : bool) : Handler Json :=
  try_except
    (c ← get_netapp_client;
     poller ← sdk_begin c (accounts_begin_delete RESOURCE_GROUP account_name);
     if wait
     then poller_result poller;; mret (dict [("status", JStr "deleted")])
     else url ← poller_polling_url poller; mret (dict [("operation", JStr url)]))
    (except_HttpResponseError sdk_error).

(** The routes of the router, parameters parsed to their declared types. *)
Inductive Target :=
| GET_accounts
| POST_accounts (body : AccountCreateBody) (wait : bool)
| DELETE_accounts (account_name : string) (wait : bool).

(** [status_code=202] on the mutating routes, the default 200 on the list. *)
Definition route_status (t : Target) : Z :=
  match t with
  | GET_accounts => 200
  | POST_accounts _ _ => 202
  | DELETE_accounts _ _ => 202
  end.

Definition endpoint (t : Target) : Handler Json :=
  match t with
  | GET_accounts => list_accounts
  | POST_accounts body wait => create_account body wait
  | DELETE_accounts account_name wait => delete_account account_name wait
  end.

(** The router was built with [dependencies=[Depends(verify_key)]]. *)
Definition serve (x_api_key : option string) (t : Target) : Handler Json :=
  Depends verify_key x_api_key;; endpoint t.

(** What a request to the router is answered with: status, outcome and
    trace; nothing when the module did not import. *)
Definition respond (x_api_key : option string) (t : Target)
    : option (Z * (Exn + Json) * list Event) :=
  if import_raises then None
  else let '(r, tr) := run (serve x_api_key t) in
       Some (response_status (route_status t) r, r, tr).

End WithProcess.
End Accounts.

(** [mcp_server/app.py] *)
Module App.

(** A request that matches one of the registered routes, with its
    parameters already parsed to their declared types. *)
Inductive Target :=
| GET_health
| GET_accounts
| POST_accounts (body : Accounts.AccountCreateBody) (wait : bool)
| DELETE_accounts (account_name : string) (wait : bool)
| GET_pools (account : string)
| POST_pools (body : Pools.PoolBody) (wait : bool)
| PATCH_pools (account pool : string) (new_size_tb : option Z) (service_level : option string) (wait : bool)
| DELETE_pools (account pool : string) (wait : bool).

Record Request := {
  x_api_key : option string;
  target : Target
}.

Record Response := {
  status : Z;
  outcome : Exn + Json;
  trace : list Event
}.

Section WithProcess.
Variable environ : gmap string string.
Variable azure : NetAppManagementClient.

Definition API_KEY : string := getenv_default environ "MCP_API_KEY" "changeme".

Definition verify_key (x_api_key : string) : Handler unit :=
  if bool_decide (x_api_key ≠ API_KEY)
  then raise (HTTPException 401 "Invalid API Key")
  else mret tt.

Definition health : Handler Json := mret (dict [("status", JStr "ok")]).

(** [from .routers import pools, accounts]: importing the application
    imports both routers; [pools] does not parse, and [accounts] raises
    when its configuration is missing. *)
Definition import_raises : bool := Pools.import_raises || Accounts.import_raises environ.

(** [status_code=202] on the mutating routes, the default 200 elsewhere. *)
Definition route_status (t : Target) : Z :=
  match t with
  | GET_health | GET_accounts | GET_pools _ => 200
  | _ => 202
  end.

(** Routing: each router was built with
    [dependencies=[Depends(verify_key)]], its own module's [verify_key]. *)
Definition endpoint (req : Request) : Handler Json :=
  match target req with
  | GET_health => health
  | GET_accounts =>
      Depends (Accounts.verify_key environ) (x_api_key req);;
      Accounts.list_accounts environ azure
  | POST_accounts body wait =>
      Depends (Accounts.verify_key environ) (x_api_key req);;
      Accounts.create_account environ azure body wait
  | DELETE_accounts account_name wait =>
      Depends (Accounts.verify_key environ) (x_api_key req);;
      Accounts.delete_account environ azure account_name wait
  | GET_pools account =>
      Depends (Pools.verify_key environ) (x_api_key req);;
      Pools.list_pools environ azure account
  | POST_pools body wait =>
      Depends (Pools.verify_key environ) (x_api_key req);;
      Pools.create_pool environ azure body wait
  | PATCH_pools account pool new_size_tb service_level wait =>
      Depends (Pools.verify_key environ) (x_api_key req);;
      Pools.update_pool environ azure account pool new_size_tb service_level wait
  | DELETE_pools account pool wait =>
      Depends (Pools.verify_key environ) (x_api_key req);;
      Pools.delete_pool environ azure account pool wait
  end.

(** What the application answers a request with; nothing when it did not
    import. *)
Definition app (req : Request) : option Response :=
  if import_raises then None
  else let '(r, tr) := run (endpoint req) in
       Some {| status := response_status (route_status (target req)) r;
               outcome := r;
               trace := tr |}.

End WithProcess.
End App.

End McpServer.

(** ** [anf_aiops_complete/mcp_server/routers/pools.py] *)

Module Complete.
Module Pools.
Section WithProcess.
Variable environ : gmap string string.
Variable azure : NetAppManagementClient.

Definition SUBSCRIPTION_ID : string := getenv_default environ "AZURE_SUBSCRIPTION_ID" "dummy".
Definition RESOURCE_GROUP : string := getenv_default environ "AZURE_RESOURCE_GROUP" "dummy".
Definition API_KEY : string := getenv_default environ "MCP_API_KEY" "changeme".

Definition verify_key (x_api_key : string) : Handler unit :=
  if bool_decide (x_api_key ≠ API_KEY)
  then raise (HTTPException 401 "Invalid API Key")
  else mret tt.

Definition _client : Handler NetAppManagementClient :=
  emit (EvClient (Some SUBSCRIPTION_ID));; mret azure.

Definition _err (err : HttpResponseError) : Exn :=
  HTTPException (err_status_code err) (err_message err).

Record PoolSpec := {
  account : string;
  pool : string;
  location : string;
  size_tb : Z;
  service_level : string
}.

(** The field constraints: [size_tb: int = Field(..., gt=0)] and
    [service_level: str = Field(..., regex="^(Ultra|Premium|Standard|StandardZRS)$")]. *)
Definition service_levels : list string := ["Ultra"; "Premium"; "Standard"; "StandardZRS"].

Definition PoolSpec_valid (spec : PoolSpec) : bool :=
  (0 <? size_tb spec) && re_match_alternatives service_levels (service_level spec).

(** Body validation, as FastAPI runs it before calling the endpoint. *)
Definition validate (spec : PoolSpec) : Handler PoolSpec :=
  if PoolSpec_valid spec then mret spec else raise RequestValidationError.

Definition list_pools (account : string) : Handler Json :=
  try_except
    (c ← _client;
     pools ← sdk_list c (pools_list (Some RESOURCE_GROUP) account);
     mret (JList (as_dict <$> pools)))
    (except_HttpResponseError _err).

Definition create_pool (spec : PoolSpec) (wait : bool) : Handler Json :=
  try_except
    (let params := dict [("location", JStr (location spec));
                         ("sku", dict [("name", JStr (service_level spec))]);
                         ("size", JInt (size_tb spec * TiB))] in
     c ← _client;
     poller ← sdk_begin c (pools_begin_create_or_update (Some RESOURCE_GROUP) (account spec) (pool spec) params);
     if wait
     then r ← poller_result poller; mret (as_dict r)
     else url ← poller_polling_url poller; mret (dict [("operation", JStr url)]))
    (except_HttpResponseError _err).

Definition update_pool (account pool : string) (new_size_tb : option Z)
    (service_level : option string) (wait : bool) : Handler Json :=
  if bool_decide (new_size_tb = None) && bool_decide (service_level = None)
  then raise (HTTPException 400 "Specify new_size_tb or service_level")
  else
    let body : gmap string Json := ∅ in
    let body := match new_size_tb with
                | Some n => if truthy_int (Some n) then <["size" := JInt (n * TiB)]> body else body
                | None => body
                end in
    let body := match service_level with
                | Some sl => if truthy_str (Some sl) then <["sku" := dict [("name", JStr sl)]]> body else body
                | None => body
                end in
    try_except
      (c ← _client;
       poller ← sdk_begin c (pools_begin_create_or_update (Some RESOURCE_GROUP) account pool (JDict body));
       if wait
       then r ← poller_result poller; mret (as_dict r)
       else url ← poller_polling_url poller; mret (dict [("operation", JStr url)]))
      (except_HttpResponseError _err).

Definition delete_pool (account pool : string) (wait : bool) : Handler Json :=
  try_except
    (c ← _client;
     poller ← sdk_begin c (pools_begin_delete (Some RESOURCE_GROUP) account pool);
     if wait
     then poller_result poller;; mret (dict [("status", JStr "deleted")])
     else url ← poller_polling_url poller; mret (dict [("operation", JStr url)]))
    (except_HttpResponseError _err).

(** [POST /pools/] as the router serves it: key check, body validation,
    endpoint. *)
Definition post_pools (x_api_key : option string) (spec : PoolSpec) (wait : bool) : Handler Json :=
  Depends verify_key x_api_key;;
  spec ← validate spec;
  create_pool spec wait.

(** The routes of the router, parameters parsed to their declared types. *)
Inductive Target :=
| GET_pools (account : string)
| POST_pools (spec : PoolSpec) (wait : bool)
| PATCH_pools (account pool : string) (new_size_tb : option Z) (service_level : option string)
    (wait : bool)
| DELETE_pools (account pool : string) (wait : bool).

(** [status_code=202] on the mutating routes, the default 200 on the list. *)
Definition route_status (t : Target) : Z :=
  match t with
  | GET_pools _ => 200
  | POST_pools _ _ => 202
  | PATCH_pools _ _ _ _ _ => 202
  | DELETE_pools _ _ _ => 202
  end.

(** The router was built with [dependencies=[Depends(verify_key)]]. *)
Definition serve (x_api_key : option string) (t : Target) : Handler Json :=
  match t with
  | GET_pools account => Depends verify_key x_api_key;; list_pools account
  | POST_pools spec wait => post_pools x_api_key spec wait
  | PATCH_pools account pool new_size_tb service_level wait =>
      Depends verify_key x_api_key;; update_pool account pool new_size_tb service_level wait
  | DELETE_pools account pool wait =>
      Depends verify_key x_api_key;; delete_pool account pool wait
  end.

(** What a request to the router is answered with: status, outcome and
    trace. The module reads its settings with defaults and imports in
    every environment. *)
Definition respond (x_api_key : option string) (t : Target) : Z * (Exn + Json) * list Event :=
  let '(r, tr) := run (serve x_api_key t) in
  (response_status (route_status t) r, r, tr).

End WithProcess.
End Pools.
End Complete.

(** ** [anf_aiops_full/mcp_server/routers/accounts.py] *)

Module Full.
Module Accounts.
Section WithProcess.
Variable environ : gmap string string.
Variable azure : NetAppManagementClient.

Definition SUBSCRIPTION_ID : string := getenv_default environ "AZURE_SUBSCRIPTION_ID" "dummy".
Definition RESOURCE_GROUP : string := getenv_default environ "AZURE_RESOURCE_GROUP" "dummy".
Definition API_KEY : string := getenv_default environ "MCP_API_KEY" "changeme".

Definition verify_key (x_api_key : string) : Handler unit :=
  if bool_decide (x_api_key ≠ API_KEY)
  then raise (HTTPException 401 "Invalid API Key")
  else mret tt.

Definition client : Handler NetAppManagementClient :=
  emit (EvClient (Some SUBSCRIPTION_ID));; mret azure.

Definition sdk_error (err : HttpResponseError) : Exn :=
  HTTPException (err_status_code err) (err_message err).

Record AccountCreateBody := {
  name : string;
  location : string;
  active_directory : option (gmap string Json)
}.

Definition list_accounts : Handler Json :=
  try_except
    (c ← client;
     accts ← sdk_list c (accounts_list (Some RESOURCE_GROUP));
     mret (JList (as_dict <$> accts)))
    (except_HttpResponseError sdk_error).

Definition create_account (body : AccountCreateBody) (wait : bool) : Handler Json :=
  try_except
    (c ← client;
     poller ← sdk_begin c
       (accounts_begin_create_or_update (Some RESOURCE_GROUP) (name body)
          (dict [("location", JStr (location body));
                 ("properties",
                  match active_directory body with
                  | Some ad => if truthy_dict (Some ad)
                               then dict [("activeDirectories", JList [JDict ad])]
                               else dict []
                  | None => dict []
                  end)]));
     if wait
     then r ← poller_result poller; mret (as_dict r)
     else url ← poller_polling_url poller; mret (dict [("operation", JStr url)]))
    (except_HttpResponseError sdk_error).

Definition delete_account (account_name : string) (wait : bool) : Handler Json :=
  try_except
    (c ← client;
     poller ← sdk_begin c (accounts_begin_delete (Some RESOURCE_GROUP) account_name);
     if wait
     then poller_result poller;; mret (dict [("status", JStr "deleted")])
     else url ← poller_polling_url poller; mret (dict [("operation", JStr url)]))
    (except_HttpResponseError sdk_error).

(** The routes of the router, parameters parsed to their declared types. *)
Inductive Target :=
| GET_accounts
| POST_accounts (body : AccountCreateBody) (wait : bool)
| DELETE_accounts (account_name : string) (wait : bool).

(** [status_code=202] on the mutating routes, the default 200 on the list. *)
Definition route_status (t : Target) : Z :=
  match t with
  | GET_accounts => 200
  | POST_accounts _ _ => 202
  | DELETE_accounts _ _ => 202
  end.

Definition endpoint (t : Target) : Handler Json :=
  match t with
  | GET_accounts => list_accounts
  | POST_accounts body wait => create_account body wait
  | DELETE_accounts account_name wait => delete_account account_name wait
  end.

(** The router was built with [dependencies=[Depends(verify_key)]]. *)
Definition serve (x_api_key : option string) (t : Target) : Handler Json :=
  Depends verify_key x_api_key;; endpoint t.

(** What a request to the router is answered with: status, outcome and
    trace. The module reads its settings with defaults and imports in
    every environment. *)
Definition respond (x_api_key : option string) (t : Target) : Z * (Exn + Json) * list Event :=
  let '(r, tr) := run (serve x_api_key t) in
  (response_status (route_status t) r, r, tr).

End WithProcess.
End Accounts.
End Full.

(** ** [mcp-server/app.py]: the minimal server *)

Module MinimalServer.

(** The three routes of the module, parameters parsed. *)
Inductive Target :=
| GET_health
| GET_accounts
| POST_accounts (account_name location : string).

Section WithProcess.
Variable environ : gmap string string.
Variable azure : NetAppManagementClient.

Definition API_KEY : string := getenv_default environ "MCP_API_KEY" "changeme".
Definition SUBSCRIPTION_ID : option string := getenv environ "AZURE_SUBSCRIPTION_ID".
Definition RESOURCE_GROUP : option string := getenv environ "AZURE_RESOURCE_GROUP".

Definition import_raises : bool :=
  negb (truthy_str SUBSCRIPTION_ID) || negb (truthy_str RESOURCE_GROUP).

Definition get_client : Handler NetAppManagementClient :=
  emit (EvClient SUBSCRIPTION_ID);; mret azure.

Definition verify_key (x_api_key : string) : Handler unit :=
  if bool_decide (x_api_key ≠ API_KEY)
  then raise (HTTPException 401 "Invalid API Key")
  else mret tt.

Definition health : Handler Json := mret (dict [("status", JStr "ok")]).

(** No [try]/[except] in this module. *)
Definition list_accounts : Handler Json :=
  client ← get_client;
  accounts ← sdk_list client (accounts_list RESOURCE_GROUP);
  mret (JList (as_dict <$> accounts)).

Definition create_account (account_name location : string) : Handler Json :=
  client ← get_client;
  let params := dict [("location", JStr location)] in
  poller ← sdk_begin client (accounts_begin_create_or_update RESOURCE_GROUP account_name params);
  r ← poller_result poller;
  mret (as_dict r).

(** [/health] is plain; the two account routes are declared with
    [dependencies=[Depends(verify_key)]]. *)
Definition endpoint (x_api_key : option string) (t : Target) : Handler Json :=
  match t with
  | GET_health => health
  | GET_accounts => Depends verify_key x_api_key;; list_accounts
  | POST_accounts account_name location =>
      Depends verify_key x_api_key;; create_account account_name location
  end.

(** No route declares a [status_code]: 200 when the endpoint returns. *)
Definition app (x_api_key : option string) (t : Target) : Z * (Exn + Json) * list Event :=
  let '(r, tr) := run (endpoint x_api_key t) in
  (response_status 200 r, r, tr).

End WithProcess.
End MinimalServer.

(** ** [sdk/azure_netapp_mcp_client/client.py]: the thin client *)

Module Client.

(** What [requests.request(method, url, headers=..., timeout=..., **kwargs)]
    is given, and the two attributes read from what it returns. *)
Record HttpRequest := {
  req_method : string;
  req_url : string;
  req_headers : gmap string string;
  req_timeout : Z;
  req_json : option Json
}.

Record HttpResponse := {
  status_code : Z;
  text : string
}.

Inductive ClientExn :=
| ApiError (message : string)
| RequestException      (* raised by [requests.request]: no response at all *)
| JSONDecodeError.      (* raised by [resp.json()] *)

Record AnfMcpClient := {
  base_url : string;
  api_key : string;
  timeout : Z
}.

Section WithTransport.
Variable environ : gmap string string.
(** The transport and the JSON decoder of [requests]. *)
Variable requests_request : HttpRequest → option HttpResponse.
Variable json_loads : string → option Json.

Definition __init__ (base_url : string) (api_key : option string) (timeout : Z) : AnfMcpClient :=
  {| base_url := rstrip "/"%char base_url;
     api_key := or_else api_key (or_else (getenv environ "MCP_API_KEY") "changeme");
     timeout := timeout |}.

Definition _headers (self : AnfMcpClient) : gmap string string :=
  {[ "x-api-key" := api_key self ]}.

Definition _request (self : AnfMcpClient) (method path : string) (json : option Json)
    : M HttpRequest ClientExn Json :=
  let url := base_url self +:+ path in
  let req := {| req_method := method; req_url := url; req_headers := _headers self;
                req_timeout := timeout self; req_json := json |} in
  emit req;;
  resp ← lift (from_option inr (inl RequestException) (requests_request req));
  if bool_decide (400 ≤ status_code resp)
  then raise (ApiError (pretty (status_code resp) +:+ " " +:+ text resp))
  else lift (from_option inr (inl JSONDecodeError) (json_loads (text resp))).

Definition list_accounts (self : AnfMcpClient) : M HttpRequest ClientExn Json :=
  _request self "GET" "/accounts" None.

Definition create_account (self : AnfMcpClient) (name location : string) : M HttpRequest ClientExn Json :=
  let payload := dict [("account_name", JStr name); ("location", JStr location)] in
  _request self "POST" "/accounts" (Some payload).

End WithTransport.
End Client.

(** ** The mutating handlers, uniformly *)

(** Every create/update/delete endpoint of the three router packages. *)
Inductive Mutation :=
| root_create_pool (body : McpServer.Pools.PoolBody)
| root_update_pool (account pool : string) (new_size_tb : option Z) (service_level : option string)
| root_delete_pool (account pool : string)
| root_create_account (body : McpServer.Accounts.AccountCreateBody)
| root_delete_account (account_name : string)
| complete_create_pool (spec : Complete.Pools.PoolSpec)
| complete_update_pool (account pool : string) (new_size_tb : option Z) (service_level : option string)
| complete_delete_pool (account pool : string)
| full_create_account (body : Full.Accounts.AccountCreateBody)
| full_delete_account (account_name : string).

Inductive Kind := Create | Update | Delete.

Definition kind (m : Mutation) : Kind :=
  match m with
  | root_create_pool _ | root_create_account _
  | complete_create_pool _ | full_create_account _ => Create
  | root_update_pool _ _ _ _ | complete_update_pool _ _ _ _ => Update
  | root_delete_pool _ _ | root_delete_account _
  | complete_delete_pool _ _ | full_delete_account _ => Delete
  end.

(** The [status_code=202] of each of these routes. *)
Definition declared_status (m : Mutation) : Z :=
  match m with
  | root_create_pool _ => 202
  | root_update_pool _ _ _ _ => 202
  | root_delete_pool _ _ => 202
  | root_create_account _ => 202
  | root_delete_account _ => 202
  | complete_create_pool _ => 202
  | complete_update_pool _ _ _ _ => 202
  | complete_delete_pool _ _ => 202
  | full_create_account _ => 202
  | full_delete_account _ => 202
  end.

(** Whether the request gets past validation: the pydantic constraints of
    [PoolSpec], and the both-absent check of [update_pool]. *)
Definition passes_validation (m : Mutation) : bool :=
  match m with
  | complete_create_pool spec => Complete.Pools.PoolSpec_valid spec
  | root_update_pool _ _ new_size_tb service_level
  | complete_update_pool _ _ new_size_tb service_level =>
      negb (bool_decide (new_size_tb = None) && bool_decide (service_level = None))
  | _ => true
  end.

Section Invoke.
Variable environ : gmap string string.
Variable azure : NetAppManagementClient.

(** Running the endpoint behind a mutation: body validation (where the
    model declares constraints), then the handler. *)
Definition invoke (m : Mutation) (wait : bool) : Handler Json :=
  match m with
  | root_create_pool body => McpServer.Pools.create_pool environ azure body wait
  | root_update_pool account pool new_size_tb service_level =>
      McpServer.Pools.update_pool environ azure account pool new_size_tb service_level wait
  | root_delete_pool account pool => McpServer.Pools.delete_pool environ azure account pool wait
  | root_create_account body => McpServer.Accounts.create_account environ azure body wait
  | root_delete_account account_name => McpServer.Accounts.delete_account environ azure account_name wait
  | complete_create_pool spec =>
      spec ← Complete.Pools.validate spec; Complete.Pools.create_pool environ azure spec wait
  | complete_update_pool account pool new_size_tb service_level =>
      Complete.Pools.update_pool environ azure account pool new_size_tb service_level wait
  | complete_delete_pool account pool => Complete.Pools.delete_pool environ azure account pool wait
  | full_create_account body => Full.Accounts.create_account environ azure body wait
  | full_delete_account account_name => Full.Accounts.delete_account environ azure account_name wait
  end.

End Invoke.

(** ** The behaviour every mutating handler is expected to refine

    Submit one operation; on a synchronous failure re-raise it as an
    [HTTPException]; otherwise either block on the poller and shape the
    final value, or hand back the polling reference. *)
Definition facade (subscription_id : option string) (azure : NetAppManagementClient)
    (op : Operation) (wait : bool) (final : Model → Json) : (Exn + Json) * list Event :=
  match begin_operation azure op with
  | inl err =>
      (inl (HTTPException (err_status_code err) (err_message err)),
       [EvClient subscription_id; EvCall op])
  | inr poller =>
      if wait then
        match result poller with
        | inl err =>
            (inl (HTTPException (err_status_code err) (err_message err)),
             [EvClient subscription_id; EvCall op; EvResult])
        | inr r => (inr (final r), [EvClient subscription_id; EvCall op; EvResult])
        end
      else
        (inr (dict [("operation", JStr (polling_url poller))]),
         [EvClient subscription_id; EvCall op; EvPollingUrl])
  end.

(** The patch body [update_pool] builds. *)
Definition patch_body (new_size_tb : option Z) (service_level : option string) : gmap string Json :=
  let body : gmap string Json := ∅ in
  let body := match new_size_tb with
              | Some n => if truthy_int (Some n) then <["size" := JInt (n * TiB)]> body else body
              | None => body
              end in
  match service_level with
  | Some sl => if truthy_str (Some sl) then <["sku" := dict [("name", JStr sl)]]> body else body
  | None => body
  end.

Definition deleted : Model → Json := λ _, dict [("status", JStr "deleted")].

Section Expected.
Variable environ : gmap string string.

(** The subscription each module builds its SDK client for. *)
Definition subscription_of (m : Mutation) : option string :=
  match m with
  | root_create_pool _ | root_update_pool _ _ _ _ | root_delete_pool _ _ =>
      McpServer.Pools.SUBSCRIPTION_ID environ
  | root_create_account _ | root_delete_account _ =>
      McpServer.Accounts.SUBSCRIPTION_ID environ
  | complete_create_pool _ | complete_update_pool _ _ _ _ | complete_delete_pool _ _ =>
      Some (Complete.Pools.SUBSCRIPTION_ID environ)
  | full_create_account _ | full_delete_account _ =>
      Some (Full.Accounts.SUBSCRIPTION_ID environ)
  end.

(** The one operation a mutation submits to the control plane. *)
Definition submitted (m : Mutation) : Operation :=
  match m with
  | root_create_pool body =>
      pools_begin_create_or_update (McpServer.Pools.RESOURCE_GROUP environ)
        (McpServer.Pools.account body) (McpServer.Pools.pool body)
        (dict [("location", JStr (McpServer.Pools.location body));
               ("sku", dict [("name", JStr (McpServer.Pools.service_level body))]);
               ("size", JInt (McpServer.Pools.size_tb body * TiB))])
  | root_update_pool account pool new_size_tb service_level =>
      pools_begin_create_or_update (McpServer.Pools.RESOURCE_GROUP environ) account pool
        (JDict (patch_body new_size_tb service_level))
  | root_delete_pool account pool =>
      pools_begin_delete (McpServer.Pools.RESOURCE_GROUP environ) account pool
  | root_create_account body =>
      accounts_begin_create_or_update (McpServer.Accounts.RESOURCE_GROUP environ)
        (McpServer.Accounts.name body)
        (dict [("location", JStr (McpServer.Accounts.location body));
               ("properties",
                dict [("activeDirectories",
                       if truthy_dict (McpServer.Accounts.active_directory body)
                       then JList (JDict <$> option_list (McpServer.Accounts.active_directory body))
                       else JList [])])])
  | root_delete_account account_name =>
      accounts_begin_delete (McpServer.Accounts.RESOURCE_GROUP environ) account_name
  | complete_create_pool spec =>
      pools_begin_create_or_update (Some (Complete.Pools.RESOURCE_GROUP environ))
        (Complete.Pools.account spec) (Complete.Pools.pool spec)
        (dict [("location", JStr (Complete.Pools.location spec));
               ("sku", dict [("name", JStr (Complete.Pools.service_level spec))]);
               ("size", JInt (Complete.Pools.size_tb spec * TiB))])
  | complete_update_pool account pool new_size_tb service_level =>
      pools_begin_create_or_update (Some (Complete.Pools.RESOURCE_GROUP environ)) account pool
        (JDict (patch_body new_size_tb service_level))
  | complete_delete_pool account pool =>
      pools_begin_delete (Some (Complete.Pools.RESOURCE_GROUP environ)) account pool
  | full_create_account body =>
      accounts_begin_create_or_update (Some (Full.Accounts.RESOURCE_GROUP environ))
        (Full.Accounts.name body)
        (dict [("location", JStr (Full.Accounts.location body));
               ("properties",
                if truthy_dict (Full.Accounts.active_directory body)
                then dict [("activeDirectories",
                            JList (JDict <$> option_list (Full.Accounts.active_directory body)))]
                else dict [])])
  | full_delete_account account_name =>
      accounts_begin_delete (Some (Full.Accounts.RESOURCE_GROUP environ)) account_name
  end.

End Expected.

(** What the body is made of once the operation is terminal: the final
    resource for create and update, a fixed marker for delete. *)
Definition final (m : Mutation) : Model → Json :=
  match kind m with
  | Create | Update => as_dict
  | Delete => deleted
  end.

(** What a mutation that fails validation is answered with. *)
Definition validation_error (m : Mutation) : Exn :=
  match m with
  | complete_create_pool _ => RequestValidationError
  | _ => HTTPException 400 "Specify new_size_tb or service_level"
  end.

(** The list endpoints. *)
Inductive Listing :=
| root_list_pools (account : string)
| root_list_accounts
| complete_list_pools (account : string)
| full_list_accounts.

Section Listings.
Variable environ : gmap string string.
Variable azure : NetAppManagementClient.

Definition invoke_list (l : Listing) : Handler Json :=
  match l with
  | root_list_pools account => McpServer.Pools.list_pools environ azure account
  | root_list_accounts => McpServer.Accounts.list_accounts environ azure
  | complete_list_pools account => Complete.Pools.list_pools environ azure account
  | full_list_accounts => Full.Accounts.list_accounts environ azure
  end.

Definition listed (l : Listing) : Operation :=
  match l with
  | root_list_pools account => pools_list (McpServer.Pools.RESOURCE_GROUP environ) account
  | root_list_accounts => accounts_list (McpServer.Accounts.RESOURCE_GROUP environ)
  | complete_list_pools account => pools_list (Some (Complete.Pools.RESOURCE_GROUP environ)) account
  | full_list_accounts => accounts_list (Some (Full.Accounts.RESOURCE_GROUP environ))
  end.

End Listings.

(** ** Reading an operation and a string *)


(** The body an operation carries, when it carries one. *)
Definition body_of (op : Operation) : option Json :=
  match op with
  | accounts_begin_create_or_update _ _ body | pools_begin_create_or_update _ _ _ body => Some body
  | _ => None
  end.

(** The bodies carried by the calls of a trace, in order. *)
Definition sent_bodies (tr : list Event) : list Json :=
  omap (λ e, match e with EvCall op => body_of op | _ => None end) tr.

Fixpoint last_char (s : string) : option Ascii.ascii :=
  match s with
  | EmptyString => None
  | String a EmptyString => Some a
  | String _ rest => last_char rest
  end.

Fixpoint repeat_char (c : Ascii.ascii) (n : nat) : string :=
  match n with
  | O => EmptyString
  | S n' => String c (repeat_char c n')
  end.

(** The same request body, read as the other copy's model. *)
Definition as_PoolSpec (body : McpServer.Pools.PoolBody) : Complete.Pools.PoolSpec :=
  {| Complete.Pools.account := McpServer.Pools.account body;
     Complete.Pools.pool := McpServer.Pools.pool body;
     Complete.Pools.location := McpServer.Pools.location body;
     Complete.Pools.size_tb := McpServer.Pools.size_tb body;
     Complete.Pools.service_level := McpServer.Pools.service_level body |}.

Definition as_Full_body (body : McpServer.Accounts.AccountCreateBody) : Full.Accounts.AccountCreateBody :=
  {| Full.Accounts.name := McpServer.Accounts.name body;
     Full.Accounts.location := McpServer.Accounts.location body;
     Full.Accounts.active_directory := McpServer.Accounts.active_directory body |}.

(** The fields both [AccountCreateBody] models declare with [Field(...)],
    that is, as required. *)
Definition AccountCreateBody_required : list string := ["name"; "location"].

(** ** Stub collaborators, for running the handlers on concrete inputs *)

Definition pool1 : Model :=
  {| as_dict := dict [("name", JStr "acct/pool1"); ("provisioningState", JStr "Succeeded")] |}.

Definition accepted : LROPoller :=
  {| polling_url := "https://management.azure.com/operations/42"; result := inr pool1 |}.

Definition conflict : HttpResponseError :=
  {| err_status_code := 409; err_message := "Conflict" |}.

Definition doomed : LROPoller :=
  {| polling_url := "https://management.azure.com/operations/43"; result := inl conflict |}.

(** Accepts every submission; every operation succeeds. *)
Definition azure_ok : NetAppManagementClient :=
  {| list_items := λ _, inr [pool1]; begin_operation := λ _, inr accepted |}.

(** Rejects every call synchronously. *)
Definition azure_rejecting : NetAppManagementClient :=
  {| list_items := λ _, inl conflict; begin_operation := λ _, inl conflict |}.

(** Accepts every submission; every operation then fails. *)
Definition azure_failing_later : NetAppManagementClient :=
  {| list_items := λ _, inr []; begin_operation := λ _, inr doomed |}.

Definition bogus_pool : McpServer.Pools.PoolBody :=
  {| McpServer.Pools.account := "acct";
     McpServer.Pools.pool := "pool1";
     McpServer.Pools.location := "eastus";
     McpServer.Pools.size_tb := 0;
     McpServer.Pools.service_level := "Bogus" |}.

(** Stub transports and a stub decoder for the thin client. *)
Definition answers_401 : Client.HttpRequest → option Client.HttpResponse :=
  λ _, Some {| Client.status_code := 401; Client.text := "Invalid API Key" |}.

Definition answers_200 : Client.HttpRequest → option Client.HttpResponse :=
  λ _, Some {| Client.status_code := 200; Client.text := "[]" |}.

Definition decodes_empty_list : string → option Json :=
  λ s, if String.eqb s "[]" then Some (JList []) else None.

(** An environment with both Azure settings, in which every module that
    parses imports. *)
Definition configured : gmap string string :=
  <["AZURE_SUBSCRIPTION_ID" := "sub-1"]> (<["AZURE_RESOURCE_GROUP" := "rg-1"]> ∅).

(** A pool whose service level is a valid name followed by a line feed. *)
Definition newline_pool : Complete.Pools.PoolSpec :=
  {| Complete.Pools.account := "acct";
     Complete.Pools.pool := "pool1";
     Complete.Pools.location := "eastus";
     Complete.Pools.size_tb := 4;
     Complete.Pools.service_level := "Ultra" +:+ LF |}.

(** A delete operation ends with no resource: its poller yields [None]. *)
Definition nothing : Model := {| as_dict := JNone |}.

Definition deletion : LROPoller :=
  {| polling_url := "https://management.azure.com/operations/44"; result := inr nothing |}.

Definition azure_deleting : NetAppManagementClient :=
  {| list_items := λ _, inr []; begin_operation := λ _, inr deletion |}.

(** A resource whose representation happens to carry an ["operation"] key. *)
Definition odd_resource : Model :=
  {| as_dict := dict [("name", JStr "acct"); ("operation", JStr "rotate-keys")] |}.

Definition azure_odd : NetAppManagementClient :=
  {| list_items := λ _, inr [];
     begin_operation := λ _, inr {| polling_url := "https://management.azure.com/operations/45";
                                    result := inr odd_resource |} |}.

(** Responses with an empty body: 304 Not Modified and 204 No Content. *)
Definition answers_304 : Client.HttpRequest → option Client.HttpResponse :=
  λ _, Some {| Client.status_code := 304; Client.text := "" |}.

Definition answers_204 : Client.HttpRequest → option Client.HttpResponse :=
  λ _, Some {| Client.status_code := 204; Client.text := "" |}.

(** 300 Multiple Choices, with a JSON body. *)
Definition answers_300 : Client.HttpRequest → option Client.HttpResponse :=
  λ _, Some {| Client.status_code := 300; Client.text := "[]" |}.

(** A client built with the defaults. *)
Definition default_client : Client.AnfMcpClient :=
  Client.__init__ ∅ "http://localhost:8000" None 30.

(** ** A fragment of Python's [re], enough for the pattern of [PoolSpec] *)

Inductive Regex :=
| RChars (literal : string)   (* ordinary characters *)
| RBegin                      (* ^ *)
| REnd                        (* $ *)
| RAlt (r1 r2 : Regex)        (* r1|r2 *)
| RSeq (r1 r2 : Regex).       (* r1 followed by r2 *)

Fixpoint strip_prefix (p s : string) : option string :=
  match p, s with
  | EmptyString, _ => Some s
  | String a p', String b s' => if Ascii.eqb a b then strip_prefix p' s' else None
  | String _ _, EmptyString => None
  end.

(** Every way [r] can match at a position of the subject, as the positions
    reached. A position is whether it is still the start of the subject,
    and what is left of it. Without flags, [^] matches at the start only,
    and [$] at the end or just before a line feed that ends the subject. *)
Fixpoint residuals (r : Regex) (at_start : bool) (rest : string) : list (bool * string) :=
  match r with
  | RChars literal =>
      match strip_prefix literal rest with
      | Some rest' => [(match literal with EmptyString => at_start | _ => false end, rest')]
      | None => []
      end
  | RBegin => if at_start then [(at_start, rest)] else []
  | REnd => if String.eqb rest "" || String.eqb rest LF then [(at_start, rest)] else []
  | RAlt r1 r2 => residuals r1 at_start rest ++ residuals r2 at_start rest
  | RSeq r1 r2 =>
      flat_map (λ position, residuals r2 (fst position) (snd position))
        (residuals r1 at_start rest)
  end.

Definition matched (positions : list (bool * string)) : bool :=
  match positions with
  | [] => false
  | _ => true
  end.

(** [re.match(r, s)]: the pattern matches at the start of [s]. *)
Definition re_match (r : Regex) (s : string) : bool :=
  matched (residuals r true s).

(** [^(Ultra|Premium|Standard|StandardZRS)$] *)
Definition service_level_pattern : Regex :=
  RSeq RBegin
    (RSeq (RAlt (RChars "Ultra")
             (RAlt (RChars "Premium") (RAlt (RChars "Standard") (RChars "StandardZRS"))))
       REnd).

(** * Properties *)

(** ** The effect monad *)

Lemma run_ret {E X A} (a : A) : run (mret a : M E X A) = (inr a, []).
Proof. reflexivity. Qed.

Lemma run_raise {E X A} (x : X) : run (raise x : M E X A) = (inl x, []).
Proof. reflexivity. Qed.

Lemma bind_raise {E X A B} (x : X) (k : A → M E X B) tr :
  (raise x ≫= k) tr = (inl x, tr).
Proof. reflexivity. Qed.

Lemma bind_ret {E X A B} (a : A) (k : A → M E X B) tr :
  (mret a ≫= k) tr = k a tr.
Proof. reflexivity. Qed.

Lemma try_except_ret {E X A} (a : A) (h : X → option (M E X A)) tr :
  try_except (mret a) h tr = (inr a, tr).
Proof. reflexivity. Qed.

Lemma try_except_raise_caught {E X A} (x : X) (h : X → option (M E X A)) k tr :
  h x = Some k → try_except (raise x) h tr = k tr.
Proof. intros Hh. unfold try_except, raise. by rewrite Hh. Qed.

Lemma try_except_raise_uncaught {E X A} (x : X) (h : X → option (M E X A)) tr :
  h x = None → try_except (raise x) h tr = (inl x, tr).
Proof. intros Hh. unfold try_except, raise. by rewrite Hh. Qed.

(** Unfold a handler down to the oracle's answers. *)
Ltac step_handler :=
  unfold run, try_except, sdk_begin, sdk_list, poller_result, poller_polling_url,
    except_HttpResponseError, emit, lift, raise, mbind, M_bind, mret, M_ret;
  cbn.

Ltac by_oracle azure :=
  step_handler;
  repeat match goal with
         | |- context [begin_operation azure ?op] =>
             destruct (begin_operation azure op) as [?err|?poller]; cbn
         | |- context [list_items azure ?op] =>
             destruct (list_items azure op) as [?err|?items]; cbn
         | |- context [result ?p] => destruct (result p) as [?err|?r]; cbn
         | |- context [if ?w then _ else _] => is_var w; destruct w; cbn
         end;
  try done.

(** ** Each mutating handler refines the façade *)

Section Refinement.
Variable environ : gmap string string.
Variable azure : NetAppManagementClient.

Lemma invoke_facade (m : Mutation) (wait : bool) :
  passes_validation m = true →
  run (invoke environ azure m wait) =
  facade (subscription_of environ m) azure (submitted environ m) wait (final m).
Proof.
  intros Hvalid. destruct m; cbn in Hvalid; unfold facade, final; cbn.
  - unfold McpServer.Pools.create_pool, McpServer.Pools.client, McpServer.Pools.sdk_error.
    by_oracle azure.
  - unfold McpServer.Pools.update_pool, McpServer.Pools.client, McpServer.Pools.sdk_error.
    apply negb_true_iff in Hvalid. rewrite Hvalid. fold (patch_body new_size_tb service_level).
    by_oracle azure.
  - unfold McpServer.Pools.delete_pool, McpServer.Pools.client, McpServer.Pools.sdk_error.
    by_oracle azure.
  - unfold McpServer.Accounts.create_account, McpServer.Accounts.get_netapp_client,
      McpServer.Accounts.sdk_error.
    destruct (McpServer.Accounts.active_directory body) as [ad|]; cbn;
      [destruct (size ad =? 0)%nat; cbn|]; by_oracle azure.
  - unfold McpServer.Accounts.delete_account, McpServer.Accounts.get_netapp_client,
      McpServer.Accounts.sdk_error.
    by_oracle azure.
  - unfold Complete.Pools.validate. rewrite Hvalid.
    unfold Complete.Pools.create_pool, Complete.Pools._client, Complete.Pools._err.
    by_oracle azure.
  - unfold Complete.Pools.update_pool, Complete.Pools._client, Complete.Pools._err.
    apply negb_true_iff in Hvalid. rewrite Hvalid. fold (patch_body new_size_tb service_level).
    by_oracle azure.
  - unfold Complete.Pools.delete_pool, Complete.Pools._client, Complete.Pools._err.
    by_oracle azure.
  - unfold Full.Accounts.create_account, Full.Accounts.client, Full.Accounts.sdk_error.
    destruct (Full.Accounts.active_directory body) as [ad|]; cbn;
      [destruct (size ad =? 0)%nat; cbn|]; by_oracle azure.
  - unfold Full.Accounts.delete_account, Full.Accounts.client, Full.Accounts.sdk_error.
    by_oracle azure.
Qed.

End Refinement.

(** A request that fails validation stops there: nothing is constructed,
    nothing is sent. *)
Lemma invoke_invalid environ azure (m : Mutation) (wait : bool) :
  passes_validation m = false →
  run (invoke environ azure m wait) = (inl (validation_error m), []).
Proof.
  intros Hinvalid. destruct m; cbn in Hinvalid; try discriminate; cbn.
  - unfold McpServer.Pools.update_pool.
    apply negb_false_iff in Hinvalid. by rewrite Hinvalid.
  - unfold Complete.Pools.validate. by rewrite Hinvalid.
  - unfold Complete.Pools.update_pool.
    apply negb_false_iff in Hinvalid. by rewrite Hinvalid.
Qed.

(** ** Facts about the façade *)

Lemma facade_calls sub azure op wait fin :
  List.filter is_call (snd (facade sub azure op wait fin)) = [EvCall op].
Proof.
  unfold facade. destruct (begin_operation azure op) as [err|p]; [done|].
  destruct wait; [|done]. by destruct (result p).
Qed.

Lemma facade_returns sub azure op wait fin body tr :
  facade sub azure op wait fin = (inr body, tr) →
  ∃ poller, begin_operation azure op = inr poller ∧
    if wait
    then ∃ r, result poller = inr r ∧ body = fin r ∧ tr = [EvClient sub; EvCall op; EvResult]
    else body = dict [("operation", JStr (polling_url poller))]
         ∧ tr = [EvClient sub; EvCall op; EvPollingUrl].
Proof.
  unfold facade. destruct (begin_operation azure op) as [err|p]; [done|].
  intros H. exists p. split; [done|]. destruct wait.
  - destruct (result p) as [err|r]; [done|]. exists r. by simplify_eq.
  - by simplify_eq.
Qed.

Lemma facade_raises sub azure op wait fin x tr :
  facade sub azure op wait fin = (inl x, tr) →
  ∃ err, x = HTTPException (err_status_code err) (err_message err) ∧
    (begin_operation azure op = inl err ∨
     ∃ poller, begin_operation azure op = inr poller ∧ wait = true ∧ result poller = inl err).
Proof.
  unfold facade. destruct (begin_operation azure op) as [err|p].
  - intros H. exists err. split; [by simplify_eq | by left].
  - destruct wait; [|done]. destruct (result p) as [err|r] eqn:Hr; [|done].
    intros H. exists err. split; [by simplify_eq|]. right. by exists p.
Qed.

(** ** Long-running operations: [wait=false] *)

(** C3. A mutating call with [wait=false] succeeds when it is validated
    and the control plane accepts the submission. The handler then returns
    the body [{"operation": <polling url>}] built from the poller it was
    given, the response carries the route's status 202, and
    [poller.result()] is never called: the handler does not wait for the
    operation. *)
Theorem wait_false_returns_operation environ azure (m : Mutation) poller :
  passes_validation m = true →
  begin_operation azure (submitted environ m) = inr poller →
  ∃ tr,
    run (invoke environ azure m false)
    = (inr (dict [("operation", JStr (polling_url poller))]), tr)
    ∧ response_status (declared_status m) (fst (run (invoke environ azure m false))) = 202
    ∧ get (dict [("operation", JStr (polling_url poller))]) "operation"
      = Some (JStr (polling_url poller))
    ∧ waited tr = false.
Proof.
  intros Hvalid Hbegin. rewrite invoke_facade by done. unfold facade. rewrite Hbegin.
  eexists. split; [done|]. split; [by destruct m|]. split; [|done].
  cbn. apply lookup_insert_eq.
Qed.

Lemma wait_false_returns_operation_witness :
  ∃ tr,
    run (invoke ∅ azure_ok (complete_delete_pool "acct" "pool1") false)
    = (inr (dict [("operation", JStr "https://management.azure.com/operations/42")]), tr)
    ∧ response_status (declared_status (complete_delete_pool "acct" "pool1"))
        (fst (run (invoke ∅ azure_ok (complete_delete_pool "acct" "pool1") false))) = 202
    ∧ get (dict [("operation", JStr "https://management.azure.com/operations/42")]) "operation"
      = Some (JStr "https://management.azure.com/operations/42")
    ∧ waited tr = false.
Proof.
  exact (wait_false_returns_operation ∅ azure_ok (complete_delete_pool "acct" "pool1") accepted
           eq_refl eq_refl).
Defined.

(** ** Long-running operations: [wait=true] *)

(** The body of a blocking delete is a fixed marker, whatever the poller
    yields. *)
Lemma wait_true_delete_body environ azure (m : Mutation) body tr :
  kind m = Delete →
  run (invoke environ azure m true) = (inr body, tr) →
  body = dict [("status", JStr "deleted")].
Proof.
  intros Hkind Hrun. rewrite invoke_facade in Hrun by (by destruct m).
  apply facade_returns in Hrun as (poller & _ & r & _ & -> & _).
  unfold final. by rewrite Hkind.
Qed.

(** C4, as stated, fails on delete. [delete_account] of [anf_aiops_full]
    with [wait=true], against a collaborator whose delete operation
    succeeds and ends with no resource, answers [{"status": "deleted"}]:
    a marker the handler makes up, not the representation of what the
    operation ended with. *)
Lemma wait_true_delete_is_not_resource :
  begin_operation azure_deleting (submitted ∅ (full_delete_account "acct")) = inr deletion
  ∧ result deletion = inr nothing
  ∧ run (invoke ∅ azure_deleting (full_delete_account "acct") true)
    = (inr (dict [("status", JStr "deleted")]),
       [EvClient (Some "dummy"); EvCall (accounts_begin_delete (Some "dummy") "acct"); EvResult])
  ∧ dict [("status", JStr "deleted")] ≠ as_dict nothing.
Proof. repeat split. discriminate. Qed.

(** A create answers with the representation as it is: were it to carry
    an ["operation"] key, so would the body. *)
Example wait_true_body_is_verbatim :
  fst (run (invoke ∅ azure_odd
              (full_create_account {| Full.Accounts.name := "acct";
                                      Full.Accounts.location := "eastus";
                                      Full.Accounts.active_directory := None |}) true))
  = inr (as_dict odd_resource)
  ∧ get (as_dict odd_resource) "operation" = Some (JStr "rotate-keys").
Proof. split; reflexivity. Qed.

(** C4, amended. When [wait=true] and the operation succeeds with the final
    resource [r], a create or update answers exactly [r.as_dict()] and a
    delete answers the marker [{"status": "deleted"}]. The body contains
    no operation reference: it has no ["operation"] key, the
    representation of a resource having none. The handler blocked on
    [poller.result()] and never asked for the polling reference. *)
Theorem wait_true_returns_final environ azure (m : Mutation) poller r :
  passes_validation m = true →
  begin_operation azure (submitted environ m) = inr poller →
  result poller = inr r →
  (kind m ≠ Delete → get (as_dict r) "operation" = None) →
  ∃ body tr,
    run (invoke environ azure m true) = (inr body, tr)
    ∧ body = match kind m with
             | Create | Update => as_dict r
             | Delete => dict [("status", JStr "deleted")]
             end
    ∧ get body "operation" = None
    ∧ waited tr = true
    ∧ EvPollingUrl ∉ tr.
Proof.
  intros Hvalid Hbegin Hresult Hplain. rewrite invoke_facade by done.
  unfold facade. rewrite Hbegin, Hresult. eexists _, _. split; [done|].
  split; [unfold final; by destruct (kind m)|]. split.
  - unfold final. destruct (kind m); [by apply Hplain..|done].
  - split; [done|]. rewrite !elem_of_cons, elem_of_nil. intros [?|[?|[?|[]]]]; discriminate.
Qed.

Lemma wait_true_returns_final_witness :
  ∃ body tr,
    run (invoke ∅ azure_ok (complete_update_pool "acct" "pool1" (Some 8) None) true)
    = (inr body, tr)
    ∧ body = as_dict pool1
    ∧ get body "operation" = None
    ∧ waited tr = true
    ∧ EvPollingUrl ∉ tr.
Proof.
  refine (wait_true_returns_final ∅ azure_ok (complete_update_pool "acct" "pool1" (Some 8) None)
            accepted pool1 _ _ _ _); reflexivity.
Defined.

(** ** Validation of [update_pool] *)

(** C5. With both [new_size_tb] and [service_level] absent, [update_pool]
    raises [HTTPException(400)] and its trace is empty: no client was
    built and no call was issued. Both copies of the router agree. *)
Theorem update_pool_requires_a_field environ azure account pool wait :
  run (McpServer.Pools.update_pool environ azure account pool None None wait)
  = (inl (HTTPException 400 "Specify new_size_tb or service_level"), [])
  ∧ run (Complete.Pools.update_pool environ azure account pool None None wait)
    = (inl (HTTPException 400 "Specify new_size_tb or service_level"), []).
Proof. split; reflexivity. Qed.

(** ** Error pass-through *)

Lemma list_passes_error_through environ azure (l : Listing) err :
  list_items azure (listed environ l) = inl err →
  fst (run (invoke_list environ azure l))
  = inl (HTTPException (err_status_code err) (err_message err)).
Proof.
  intros Hfail. destruct l; cbn in *;
    unfold McpServer.Pools.list_pools, McpServer.Pools.client, McpServer.Pools.sdk_error,
      McpServer.Accounts.list_accounts, McpServer.Accounts.get_netapp_client,
      McpServer.Accounts.sdk_error,
      Complete.Pools.list_pools, Complete.Pools._client, Complete.Pools._err,
      Full.Accounts.list_accounts, Full.Accounts.client, Full.Accounts.sdk_error;
    step_handler; by rewrite Hfail.
Qed.

(** In the three router packages the error is passed through. When the
    control plane fails a call with [err], either at submission or (for [wait=true])
    when the poller reaches its terminal state, the router handler raises
    an [HTTPException] whose status code is [err.status_code] and whose
    detail is [err.message]. The same holds for the list endpoints. *)
Lemma sdk_error_passed_through environ azure err :
  (∀ (m : Mutation) (wait : bool),
     passes_validation m = true →
     begin_operation azure (submitted environ m) = inl err
     ∨ (∃ poller, begin_operation azure (submitted environ m) = inr poller
                  ∧ wait = true ∧ result poller = inl err) →
     fst (run (invoke environ azure m wait))
     = inl (HTTPException (err_status_code err) (err_message err))
     ∧ response_status (declared_status m) (fst (run (invoke environ azure m wait)))
       = err_status_code err)
  ∧ (∀ l : Listing,
       list_items azure (listed environ l) = inl err →
       fst (run (invoke_list environ azure l))
       = inl (HTTPException (err_status_code err) (err_message err))).
Proof.
  split; [|intros l; apply list_passes_error_through].
  intros m wait Hvalid Hfail. rewrite invoke_facade by done. unfold facade.
  destruct Hfail as [Hsync | (poller & Hbegin & -> & Hresult)].
  - by rewrite Hsync.
  - by rewrite Hbegin, Hresult.
Qed.

Lemma sdk_error_passed_through_witness :
  fst (run (invoke ∅ azure_rejecting (root_create_pool bogus_pool) false))
  = inl (HTTPException 409 "Conflict")
  ∧ fst (run (invoke ∅ azure_failing_later (full_delete_account "acct") true))
    = inl (HTTPException 409 "Conflict")
  ∧ fst (run (invoke_list ∅ azure_rejecting (root_list_pools "acct")))
    = inl (HTTPException 409 "Conflict").
Proof.
  split; [|split].
  - apply (proj1 (sdk_error_passed_through ∅ azure_rejecting conflict)
             (root_create_pool bogus_pool) false); [reflexivity | left; reflexivity].
  - apply (proj1 (sdk_error_passed_through ∅ azure_failing_later conflict)
             (full_delete_account "acct") true); [reflexivity |].
    right. exists doomed. repeat split.
  - apply (proj2 (sdk_error_passed_through ∅ azure_rejecting conflict) (root_list_pools "acct")).
    reflexivity.
Defined.

(** The minimal server of [mcp-server/app.py] has no [except] clause: there
    the SDK's error leaves the endpoint as it is, which the framework
    answers with 500. *)
Lemma minimal_create_account_error_escapes environ azure account_name location err :
  begin_operation azure
    (accounts_begin_create_or_update (MinimalServer.RESOURCE_GROUP environ) account_name
       (dict [("location", JStr location)])) = inl err →
  fst (run (MinimalServer.create_account environ azure account_name location)) = inl (SdkError err)
  ∧ response_status 200 (inl (SdkError err)) = 500.
Proof.
  intros Hfail. unfold MinimalServer.create_account, MinimalServer.get_client.
  step_handler. by rewrite Hfail.
Qed.

(** C6 fails in [mcp-server/app.py]. With both settings present the module
    imports; a [POST /accounts] that presents the configured key, and
    whose submission the control plane fails with 409 "Conflict", ends in
    the SDK's exception, unhandled: the response is 500 and carries
    neither the remote status code nor the remote message. *)
Theorem minimal_server_answers_500_for_a_conflict :
  MinimalServer.import_raises configured = false
  ∧ begin_operation azure_rejecting
      (accounts_begin_create_or_update (Some "rg-1") "acct" (dict [("location", JStr "eastus")]))
    = inl conflict
  ∧ MinimalServer.app configured azure_rejecting (Some "changeme")
      (MinimalServer.POST_accounts "acct" "eastus")
    = (500, inl (SdkError conflict),
       [EvClient (Some "sub-1");
        EvCall (accounts_begin_create_or_update (Some "rg-1") "acct"
                  (dict [("location", JStr "eastus")]))])
  ∧ response_status 200 (inl (SdkError conflict)) ≠ err_status_code conflict.
Proof. repeat split. discriminate. Qed.

(** ** One call per invocation *)

(** C7. A mutating handler that gets past validation issues exactly one
    call to the control plane, the submission of its operation, whatever
    [wait] is and however the control plane answers. *)
Theorem exactly_one_mutating_call environ azure (m : Mutation) (wait : bool) :
  passes_validation m = true →
  mutating_calls (snd (run (invoke environ azure m wait))) = 1%nat
  ∧ List.filter is_call (snd (run (invoke environ azure m wait))) = [EvCall (submitted environ m)].
Proof.
  intros Hvalid. rewrite invoke_facade by done. split; [|apply facade_calls].
  unfold facade. destruct (begin_operation _ _) as [err|p].
  - by destruct m.
  - destruct wait; [destruct (result p)|]; by destruct m.
Qed.

Lemma exactly_one_mutating_call_witness :
  mutating_calls (snd (run (invoke ∅ azure_failing_later (root_update_pool "acct" "pool1" (Some 4) None) true))) = 1%nat
  ∧ List.filter is_call (snd (run (invoke ∅ azure_failing_later (root_update_pool "acct" "pool1" (Some 4) None) true)))
    = [EvCall (submitted ∅ (root_update_pool "acct" "pool1" (Some 4) None))].
Proof.
  apply (exactly_one_mutating_call ∅ azure_failing_later
           (root_update_pool "acct" "pool1" (Some 4) None) true).
  reflexivity.
Defined.

(** ** The zero-size patch *)

(** Against a collaborator that accepts the submission, the zero-size
    update is answered with an operation reference, and the body that was
    sent is [{}]. *)
Example update_pool_zero_size_accepted :
  run (McpServer.Pools.update_pool ∅ azure_ok "acct" "pool1" (Some 0) None false)
  = (inr (dict [("operation", JStr "https://management.azure.com/operations/42")]),
     [EvClient None;
      EvCall (pools_begin_create_or_update None "acct" "pool1" (JDict ∅));
      EvPollingUrl]).
Proof. reflexivity. Qed.

(** C10. [update_pool] with [new_size_tb = 0] and no [service_level] gets
    past the both-absent check ([0 is not None]), the truthiness test
    leaves the size out of the patch, and the handler goes on exactly as
    the façade does on the empty body [{}]: it submits [{}] to the control
    plane and fails only if the control plane does. Both copies of the
    router agree. *)
Theorem update_pool_zero_size_sends_empty_patch environ azure account pool wait :
  run (McpServer.Pools.update_pool environ azure account pool (Some 0) None wait)
  = facade (McpServer.Pools.SUBSCRIPTION_ID environ) azure
      (pools_begin_create_or_update (McpServer.Pools.RESOURCE_GROUP environ) account pool (JDict ∅))
      wait as_dict
  ∧ run (Complete.Pools.update_pool environ azure account pool (Some 0) None wait)
    = facade (Some (Complete.Pools.SUBSCRIPTION_ID environ)) azure
        (pools_begin_create_or_update (Some (Complete.Pools.RESOURCE_GROUP environ)) account pool (JDict ∅))
        wait as_dict
  ∧ List.filter is_call
      (snd (run (McpServer.Pools.update_pool environ azure account pool (Some 0) None wait)))
    = [EvCall (pools_begin_create_or_update (McpServer.Pools.RESOURCE_GROUP environ)
                 account pool (JDict ∅))]
  ∧ List.filter is_call
      (snd (run (Complete.Pools.update_pool environ azure account pool (Some 0) None wait)))
    = [EvCall (pools_begin_create_or_update (Some (Complete.Pools.RESOURCE_GROUP environ))
                 account pool (JDict ∅))].
Proof.
  assert (run (McpServer.Pools.update_pool environ azure account pool (Some 0) None wait)
          = facade (McpServer.Pools.SUBSCRIPTION_ID environ) azure
              (pools_begin_create_or_update (McpServer.Pools.RESOURCE_GROUP environ)
                 account pool (JDict ∅)) wait as_dict) as Hroot
    by exact (invoke_facade environ azure (root_update_pool account pool (Some 0) None) wait
                eq_refl).
  assert (run (Complete.Pools.update_pool environ azure account pool (Some 0) None wait)
          = facade (Some (Complete.Pools.SUBSCRIPTION_ID environ)) azure
              (pools_begin_create_or_update (Some (Complete.Pools.RESOURCE_GROUP environ))
                 account pool (JDict ∅)) wait as_dict) as Hcomplete
    by exact (invoke_facade environ azure (complete_update_pool account pool (Some 0) None) wait
                eq_refl).
  split; [exact Hroot|]. split; [exact Hcomplete|].
  rewrite Hroot, Hcomplete. split; apply facade_calls.
Qed.

(** ** Validation of the pool-create body *)

(** What the constraints of [PoolSpec] accept: a positive size, and one of
    the four service levels, possibly followed by a line feed. *)
Lemma PoolSpec_valid_iff (spec : Complete.Pools.PoolSpec) :
  Complete.Pools.PoolSpec_valid spec = true ↔
  0 < Complete.Pools.size_tb spec
  ∧ ∃ level, level ∈ Complete.Pools.service_levels
      ∧ (Complete.Pools.service_level spec = level
         ∨ Complete.Pools.service_level spec = level +:+ LF).
Proof.
  unfold Complete.Pools.PoolSpec_valid, re_match_alternatives.
  rewrite andb_true_iff, Z.ltb_lt, existsb_exists.
  split; intros [Hsize (level & Hin & Hmatch)]; (split; [done|]); exists level.
  - apply list_elem_of_In in Hin. split; [done|].
    apply orb_true_iff in Hmatch as [H|H]; apply String.eqb_eq in H; auto.
  - apply list_elem_of_In in Hin. split; [done|].
    apply orb_true_iff. destruct Hmatch as [H|H]; apply String.eqb_eq in H; auto.
Qed.

Lemma PoolSpec_rejects_nonpositive_size (spec : Complete.Pools.PoolSpec) :
  Complete.Pools.size_tb spec ≤ 0 → Complete.Pools.PoolSpec_valid spec = false.
Proof.
  intros Hsize. apply not_true_is_false. rewrite PoolSpec_valid_iff. lia.
Qed.

(** In the [anf_aiops_complete] router an invalid body is answered with a
    4xx status and an empty trace, whatever the key. *)
Lemma complete_create_pool_rejects_invalid environ azure x_api_key spec wait :
  Complete.Pools.PoolSpec_valid spec = false →
  ∃ x, run (Complete.Pools.post_pools environ azure x_api_key spec wait) = (inl x, [])
       ∧ 400 ≤ response_status 202 (inl x) < 500.
Proof.
  intros Hinvalid. unfold Complete.Pools.post_pools, Depends, Header_required,
    Complete.Pools.verify_key, Complete.Pools.validate.
  rewrite Hinvalid. destruct x_api_key as [key|]; step_handler.
  - case_bool_decide; cbn; eexists; (split; [done|]); cbn; lia.
  - eexists; (split; [done|]); cbn; lia.
Qed.

(** The regular expression lets a trailing line feed through. *)
Example PoolSpec_accepts_trailing_newline :
  Complete.Pools.PoolSpec_valid
    {| Complete.Pools.account := "acct"; Complete.Pools.pool := "pool1";
       Complete.Pools.location := "eastus"; Complete.Pools.size_tb := 4;
       Complete.Pools.service_level := "Ultra" +:+ LF |} = true.
Proof. reflexivity. Qed.

(** C1 fails in [anf_aiops_complete/mcp_server/routers/pools.py] on the
    service level. The pattern ends in [$], which also matches before a
    final line feed: a body of size 4 whose service level is ["Ultra"]
    followed by a line feed, not one of the four names, passes validation.
    Presented with the configured key it is submitted to the control plane
    once, with that service level, and answered 202. *)
Theorem complete_create_pool_accepts_trailing_newline environ :
  0 < Complete.Pools.size_tb newline_pool
  ∧ (Complete.Pools.service_level newline_pool ∉ Complete.Pools.service_levels)
  ∧ (∀ azure wait,
       List.filter is_call
         (snd (Complete.Pools.respond environ azure (Some (Complete.Pools.API_KEY environ))
                 (Complete.Pools.POST_pools newline_pool wait)))
       = [EvCall (pools_begin_create_or_update (Some (Complete.Pools.RESOURCE_GROUP environ))
                    "acct" "pool1"
                    (dict [("location", JStr "eastus");
                           ("sku", dict [("name", JStr ("Ultra" +:+ LF))]);
                           ("size", JInt 4398046511104)]))])
  ∧ fst (Complete.Pools.respond environ azure_ok (Some (Complete.Pools.API_KEY environ))
           (Complete.Pools.POST_pools newline_pool false))
    = (202, inr (dict [("operation", JStr "https://management.azure.com/operations/42")])).
Proof.
  split; [done|]. split.
  { unfold Complete.Pools.service_levels. rewrite !elem_of_cons, elem_of_nil.
    intros [?|[?|[?|[?|[]]]]]; discriminate. }
  assert (∀ azure wait,
            run (Complete.Pools.serve environ azure (Some (Complete.Pools.API_KEY environ))
                   (Complete.Pools.POST_pools newline_pool wait))
            = run (invoke environ azure (complete_create_pool newline_pool) wait)) as Hserve.
  { intros azure wait. cbn.
    unfold Complete.Pools.post_pools, Depends, Header_required, Complete.Pools.verify_key.
    unfold run, mbind, M_bind, mret, M_ret; cbn.
    by rewrite bool_decide_eq_false_2 by (intros Hne; by apply Hne). }
  split.
  - intros azure wait. unfold Complete.Pools.respond. rewrite Hserve.
    rewrite invoke_facade by done.
    destruct (facade _ _ _ _ _) as [r tr] eqn:Hrun. cbn.
    change tr with (snd (r, tr)). rewrite <- Hrun. apply facade_calls.
  - unfold Complete.Pools.respond. rewrite Hserve. by rewrite invoke_facade.
Qed.

(** ** The API key *)

(** The application of [mcp_server/app.py] imports the pools router, which
    does not parse: it answers nothing, in any environment. *)
Remark mcp_server_app_never_loads environ azure (req : McpServer.App.Request) :
  McpServer.App.app environ azure req = None.
Proof. reflexivity. Qed.

(** C2 fails when the header is absent. The routers of
    [anf_aiops_complete] and [anf_aiops_full] import in every environment,
    and the requests of their own tests, [GET /pools/?account=foo] and
    [GET /accounts/] without [x-api-key], are answered 422 and not the 401
    those tests assert; so are the accounts router of [mcp_server] and the
    minimal server once both settings are present. No call is made. *)
Theorem missing_api_key_answers_422 environ azure :
  Complete.Pools.respond environ azure None (Complete.Pools.GET_pools "foo")
  = (422, inl RequestValidationError, [])
  ∧ Full.Accounts.respond environ azure None Full.Accounts.GET_accounts
    = (422, inl RequestValidationError, [])
  ∧ McpServer.Accounts.respond configured azure None McpServer.Accounts.GET_accounts
    = Some (422, inl RequestValidationError, [])
  ∧ MinimalServer.import_raises configured = false
  ∧ MinimalServer.app configured azure None MinimalServer.GET_accounts
    = (422, inl RequestValidationError, []).
Proof. repeat split. Qed.

(** C9. With [MCP_API_KEY] unset, every server module's [API_KEY] is
    ["changeme"] and a request presenting [x-api-key: changeme] gets past
    each module's key check; a thin client built without an explicit key
    in the same environment sends ["changeme"] too. *)
Theorem default_api_key_is_changeme (environ : gmap string string) :
  environ !! "MCP_API_KEY" = None →
  (McpServer.App.API_KEY environ = "changeme"
   ∧ McpServer.Pools.API_KEY environ = "changeme"
   ∧ McpServer.Accounts.API_KEY environ = "changeme"
   ∧ Complete.Pools.API_KEY environ = "changeme"
   ∧ Full.Accounts.API_KEY environ = "changeme"
   ∧ MinimalServer.API_KEY environ = "changeme")
  ∧ (run (Depends (McpServer.App.verify_key environ) (Some "changeme")) = (inr tt, [])
     ∧ run (Depends (McpServer.Pools.verify_key environ) (Some "changeme")) = (inr tt, [])
     ∧ run (Depends (McpServer.Accounts.verify_key environ) (Some "changeme")) = (inr tt, [])
     ∧ run (Depends (Complete.Pools.verify_key environ) (Some "changeme")) = (inr tt, [])
     ∧ run (Depends (Full.Accounts.verify_key environ) (Some "changeme")) = (inr tt, [])
     ∧ run (Depends (MinimalServer.verify_key environ) (Some "changeme")) = (inr tt, []))
  ∧ (∀ base_url timeout,
       Client.api_key (Client.__init__ environ base_url None timeout) = "changeme"
       ∧ Client._headers (Client.__init__ environ base_url None timeout)
         = {["x-api-key" := "changeme"]}).
Proof.
  intros Hunset.
  assert (getenv_default environ "MCP_API_KEY" "changeme" = "changeme") as Hkey
    by (unfold getenv_default; by rewrite Hunset).
  split; [by repeat split|]. split.
  - unfold Depends, Header_required, McpServer.App.verify_key, McpServer.Pools.verify_key,
      McpServer.Accounts.verify_key, Complete.Pools.verify_key, Full.Accounts.verify_key,
      MinimalServer.verify_key, McpServer.App.API_KEY, McpServer.Pools.API_KEY,
      McpServer.Accounts.API_KEY, Complete.Pools.API_KEY, Full.Accounts.API_KEY,
      MinimalServer.API_KEY.
    rewrite Hkey. by repeat split.
  - intros base_url timeout. unfold Client._headers, Client.__init__, getenv; cbn.
    by rewrite Hunset.
Qed.

Lemma default_api_key_is_changeme_witness :
  McpServer.App.API_KEY ∅ = "changeme"
  ∧ run (Depends (McpServer.Pools.verify_key ∅) (Some "changeme")) = (inr tt, [])
  ∧ Client.api_key (Client.__init__ ∅ "http://localhost:8000/" None 30) = "changeme".
Proof.
  destruct (default_api_key_is_changeme ∅) as ((Happ & _) & (_ & Hpools & _) & Hclient);
    [reflexivity|].
  split; [exact Happ|]. split; [exact Hpools|].
  exact (proj1 (Hclient "http://localhost:8000/" 30)).
Defined.

(** ** The thin client *)

Section ThinClient.
Variable requests_request : Client.HttpRequest → option Client.HttpResponse.
Variable json_loads : string → option Json.

(** C8, amended. [_request] sends one HTTP request. When the response
    status is 400 or more it raises [ApiError] with the message
    ["<status> <body text>"]. Below 400, whatever the status, it returns
    the decoded JSON body, and when the body does not decode it raises the
    decoder's error. The request is sent once: there is no retry. *)
Theorem request_raises_ApiError_or_returns_json
    (self : Client.AnfMcpClient) (method path : string) (json : option Json)
    (resp : Client.HttpResponse) :
  let req := {| Client.req_method := method;
                Client.req_url := Client.base_url self +:+ path;
                Client.req_headers := {["x-api-key" := Client.api_key self]};
                Client.req_timeout := Client.timeout self;
                Client.req_json := json |} in
  requests_request req = Some resp →
  (400 ≤ Client.status_code resp →
     fst (run (Client._request requests_request json_loads self method path json))
     = inl (Client.ApiError (pretty (Client.status_code resp) +:+ " " +:+ Client.text resp)))
  ∧ (Client.status_code resp < 400 →
     ∀ payload, json_loads (Client.text resp) = Some payload →
       fst (run (Client._request requests_request json_loads self method path json))
       = inr payload)
  ∧ (Client.status_code resp < 400 →
     json_loads (Client.text resp) = None →
     fst (run (Client._request requests_request json_loads self method path json))
     = inl Client.JSONDecodeError)
  ∧ snd (run (Client._request requests_request json_loads self method path json)) = [req].
Proof.
  intros req Hresp. unfold Client._request, Client._headers. fold req.
  unfold run, emit, lift, raise, mbind, M_bind; cbn. rewrite Hresp; cbn.
  case_bool_decide as Hstatus; cbn.
  - split; [done|]. split; [lia|]. split; [lia|done].
  - split; [lia|]. split; [by intros _ payload ->|].
    split; [by intros _ ->|]. by destruct (json_loads (Client.text resp)).
Qed.

End ThinClient.

Lemma request_raises_ApiError_or_returns_json_witness :
  fst (run (Client._request answers_401 decodes_empty_list
              (Client.__init__ ∅ "http://localhost:8000/" None 30) "GET" "/accounts" None))
  = inl (Client.ApiError "401 Invalid API Key")
  ∧ fst (run (Client._request answers_200 decodes_empty_list
                (Client.__init__ ∅ "http://localhost:8000/" None 30) "GET" "/accounts" None))
    = inr (JList [])
  ∧ fst (run (Client._request answers_204 decodes_empty_list
                (Client.__init__ ∅ "http://localhost:8000/" None 30) "GET" "/accounts" None))
    = inl Client.JSONDecodeError.
Proof.
  split; [|split].
  - apply (proj1 (request_raises_ApiError_or_returns_json answers_401 decodes_empty_list
                    (Client.__init__ ∅ "http://localhost:8000/" None 30) "GET" "/accounts" None
                    {| Client.status_code := 401; Client.text := "Invalid API Key" |} eq_refl)).
    cbn. lia.
  - apply (proj1 (proj2 (request_raises_ApiError_or_returns_json answers_200 decodes_empty_list
                    (Client.__init__ ∅ "http://localhost:8000/" None 30) "GET" "/accounts" None
                    {| Client.status_code := 200; Client.text := "[]" |} eq_refl))).
    + cbn. lia.
    + reflexivity.
  - apply (proj1 (proj2 (proj2 (request_raises_ApiError_or_returns_json answers_204
                    decodes_empty_list
                    (Client.__init__ ∅ "http://localhost:8000/" None 30) "GET" "/accounts" None
                    {| Client.status_code := 204; Client.text := "" |} eq_refl)))).
    + cbn. lia.
    + reflexivity.
Defined.

(** C8, as stated, fails on both sides of the success range. A 304 with
    its empty body is outside the range and fails, but with the decoder's
    error and not with [ApiError]; a 300 with a JSON body is outside the
    range and does not fail at all; and a 204 with its empty body is inside
    the range and returns no payload: it raises the decoder's error. *)
Lemma request_contract_fails_around_the_success_range :
  (¬ (200 ≤ 304 < 300)
   ∧ run (Client._request answers_304 decodes_empty_list default_client "GET" "/accounts" None)
     = (inl Client.JSONDecodeError,
        [{| Client.req_method := "GET"; Client.req_url := "http://localhost:8000/accounts";
            Client.req_headers := {["x-api-key" := "changeme"]};
            Client.req_timeout := 30; Client.req_json := None |}]))
  ∧ (¬ (200 ≤ 300 < 300)
     ∧ fst (run (Client._request answers_300 decodes_empty_list default_client
                   "GET" "/accounts" None))
       = inr (JList []))
  ∧ (200 ≤ 204 < 300
     ∧ fst (run (Client._request answers_204 decodes_empty_list default_client
                   "GET" "/accounts" None))
       = inl Client.JSONDecodeError).
Proof. repeat split; lia. Qed.

(** The client's [list_accounts] is one [GET] carrying the key header. *)
Example client_list_accounts_request :
  snd (run (Client.list_accounts answers_200 decodes_empty_list
              (Client.__init__ ∅ "http://localhost:8000//" (Some "s3cret") 30)))
  = [{| Client.req_method := "GET";
        Client.req_url := "http://localhost:8000/accounts";
        Client.req_headers := {["x-api-key" := "s3cret"]};
        Client.req_timeout := 30;
        Client.req_json := None |}].
Proof. reflexivity. Qed.

(** * Further properties of the routers, the applications and the client *)

(** ** Requests without the configured key *)



(** X2. The same holds for the minimal server of [mcp-server/app.py]:
    without the configured key its two account routes answer 401 (wrong
    key) or 422 (no header) and nothing is built or sent; [/health] never
    touches the SDK. *)
Theorem minimal_server_checks_key_first environ azure x_api_key (t : MinimalServer.Target) :
  x_api_key ≠ Some (MinimalServer.API_KEY environ) →
  MinimalServer.app environ azure x_api_key t
  = match t with
    | MinimalServer.GET_health => (200, inr (dict [("status", JStr "ok")]), [])
    | _ => match x_api_key with
           | Some _ => (401, inl (HTTPException 401 "Invalid API Key"), [])
           | None => (422, inl RequestValidationError, [])
           end
    end.
Proof.
  intros Hkey. destruct t; [done|..]; destruct x_api_key as [key|]; try done;
    unfold MinimalServer.app, MinimalServer.endpoint, Depends, Header_required,
      MinimalServer.verify_key; step_handler;
    rewrite bool_decide_eq_true_2 by congruence; done.
Qed.

Lemma minimal_server_checks_key_first_witness :
  MinimalServer.app ∅ azure_ok None (MinimalServer.POST_accounts "acct" "eastus")
  = (422, inl RequestValidationError, []).
Proof.
  apply (minimal_server_checks_key_first ∅ azure_ok None
           (MinimalServer.POST_accounts "acct" "eastus")).
  discriminate.
Defined.

(** ** The list endpoints *)

(** X3. A list endpoint issues exactly one call, the list operation of its
    scope, and no mutating call; when the control plane answers with items
    the body is the list of their [as_dict()] values, one per item and in
    the order received. *)
Theorem list_returns_items_in_order environ azure (l : Listing) :
  List.filter is_call (snd (run (invoke_list environ azure l))) = [EvCall (listed environ l)]
  ∧ mutating_calls (snd (run (invoke_list environ azure l))) = 0%nat
  ∧ (∀ items, list_items azure (listed environ l) = inr items →
       ∃ bodies, fst (run (invoke_list environ azure l)) = inr (JList bodies)
         ∧ length bodies = length items
         ∧ ∀ i, bodies !! i = as_dict <$> items !! i).
Proof.
  destruct l; cbn;
    unfold McpServer.Pools.list_pools, McpServer.Pools.client, McpServer.Pools.sdk_error,
      McpServer.Accounts.list_accounts, McpServer.Accounts.get_netapp_client,
      McpServer.Accounts.sdk_error,
      Complete.Pools.list_pools, Complete.Pools._client, Complete.Pools._err,
      Full.Accounts.list_accounts, Full.Accounts.client, Full.Accounts.sdk_error,
      mutating_calls;
    step_handler;
    (destruct (list_items azure _) as [err|items]; cbn;
     (split; [done|]); (split; [done|]); intros items' Heq; simplify_eq;
     exists (as_dict <$> items');
     (split; [done|]); split; [apply length_fmap | intros i; apply list_lookup_fmap]).
Qed.

Lemma list_returns_items_in_order_witness :
  ∃ bodies, fst (run (invoke_list ∅ azure_ok (root_list_pools "acct"))) = inr (JList bodies)
    ∧ length bodies = length [pool1]
    ∧ ∀ i, bodies !! i = as_dict <$> [pool1] !! i.
Proof.
  apply (proj2 (proj2 (list_returns_items_in_order ∅ azure_ok (root_list_pools "acct")))).
  reflexivity.
Defined.

(** ** What a mutating handler does to the outside world *)

(** X4. The whole trace of a validated mutation: it builds one SDK client,
    submits its operation, and then, only if the submission was accepted,
    either blocks on the poller ([wait=true]) or reads the polling
    reference ([wait=false]). Nothing else happens, and the trace does not
    depend on how the operation ends. *)
Theorem mutation_trace environ azure (m : Mutation) (wait : bool) :
  passes_validation m = true →
  snd (run (invoke environ azure m wait))
  = [EvClient (subscription_of environ m); EvCall (submitted environ m)]
    ++ match begin_operation azure (submitted environ m) with
       | inl _ => []
       | inr _ => if wait then [EvResult] else [EvPollingUrl]
       end.
Proof.
  intros Hvalid. rewrite invoke_facade by done. unfold facade.
  destruct (begin_operation azure _) as [err|p]; [done|].
  destruct wait; [by destruct (result p) | done].
Qed.

Lemma mutation_trace_witness :
  snd (run (invoke ∅ azure_failing_later (root_delete_account "acct") true))
  = [EvClient None; EvCall (accounts_begin_delete None "acct"); EvResult].
Proof.
  pose proof (mutation_trace ∅ azure_failing_later (root_delete_account "acct") true eq_refl)
    as Htrace.
  exact Htrace.
Defined.

Lemma invoke_list_outcome environ azure (l : Listing) :
  fst (run (invoke_list environ azure l))
  = match list_items azure (listed environ l) with
    | inl err => inl (HTTPException (err_status_code err) (err_message err))
    | inr items => inr (JList (as_dict <$> items))
    end.
Proof.
  destruct l; cbn;
    unfold McpServer.Pools.list_pools, McpServer.Pools.client, McpServer.Pools.sdk_error,
      McpServer.Accounts.list_accounts, McpServer.Accounts.get_netapp_client,
      McpServer.Accounts.sdk_error,
      Complete.Pools.list_pools, Complete.Pools._client, Complete.Pools._err,
      Full.Accounts.list_accounts, Full.Accounts.client, Full.Accounts.sdk_error;
    step_handler; by destruct (list_items azure _).
Qed.

(** X5. No router handler lets the SDK's own exception out: whatever the
    control plane answers, a mutating or list endpoint never ends in an
    unhandled [HttpResponseError]. *)
Theorem routers_never_leak_sdk_error environ azure err :
  (∀ (m : Mutation) (wait : bool), fst (run (invoke environ azure m wait)) ≠ inl (SdkError err))
  ∧ (∀ l : Listing, fst (run (invoke_list environ azure l)) ≠ inl (SdkError err)).
Proof.
  split.
  - intros m wait. destruct (passes_validation m) eqn:Hvalid.
    + rewrite invoke_facade by done. unfold facade.
      destruct (begin_operation azure _) as [e|p]; [done|].
      destruct wait; [by destruct (result p) | done].
    + rewrite invoke_invalid by done. by destruct m.
  - intros l. rewrite invoke_list_outcome.
    by destruct (list_items azure (listed environ l)).
Qed.

(** X6. With [wait=false] an accepted submission is answered with the
    operation reference even when the operation is going to fail: the
    poller's result is never looked at, so a later failure is not
    reported to this caller. *)
Theorem wait_false_ignores_the_result environ azure (m : Mutation) poller :
  passes_validation m = true →
  begin_operation azure (submitted environ m) = inr poller →
  fst (run (invoke environ azure m false))
  = inr (dict [("operation", JStr (polling_url poller))]).
Proof.
  intros Hvalid Hbegin. rewrite invoke_facade by done. unfold facade. by rewrite Hbegin.
Qed.

Lemma wait_false_ignores_the_result_witness :
  result doomed = inl conflict
  ∧ fst (run (invoke ∅ azure_failing_later (root_create_pool bogus_pool) false))
    = inr (dict [("operation", JStr "https://management.azure.com/operations/43")]).
Proof.
  split; [reflexivity|].
  apply (wait_false_ignores_the_result ∅ azure_failing_later (root_create_pool bogus_pool) doomed);
    reflexivity.
Defined.

(** ** Validation in the [anf_aiops_complete] pools router *)

Lemma string_app_nil_r (s : string) : s +:+ "" = s.
Proof.
  induction s as [|a s IH]; [done|].
  change (String a s +:+ "") with (String a (s +:+ "")). by rewrite IH.
Qed.

Lemma string_app_inj_l (p r1 r2 : string) : p +:+ r1 = p +:+ r2 → r1 = r2.
Proof. induction p as [|a p IH]; cbn; [done|]. intros [= H]. by apply IH. Qed.

Lemma strip_prefix_Some p s r : strip_prefix p s = Some r ↔ s = p +:+ r.
Proof.
  revert s. induction p as [|a p IH]; intros s; cbn.
  - split; [by intros [= ->] | by intros ->].
  - destruct s as [|b s]; [done|].
    destruct (Ascii.eqb a b) eqn:Hab.
    + apply Ascii.eqb_eq in Hab as ->. rewrite IH. split; [by intros -> | by intros [= ->]].
    + apply Ascii.eqb_neq in Hab. split; [done | intros [= <- _]; done].
Qed.

Lemma matched_app l1 l2 : matched (l1 ++ l2) = matched l1 || matched l2.
Proof. by destruct l1, l2. Qed.

Lemma residuals_seq r1 r2 b s :
  residuals (RSeq r1 r2) b s
  = flat_map (λ position, residuals r2 (fst position) (snd position)) (residuals r1 b s).
Proof. reflexivity. Qed.

Lemma residuals_alt r1 r2 b s :
  residuals (RAlt r1 r2) b s = residuals r1 b s ++ residuals r2 b s.
Proof. reflexivity. Qed.

(** A literal followed by [$] matches the literal itself and the literal
    followed by one line feed, nothing else. *)
Lemma literal_then_end literal b s :
  matched (flat_map (λ position, residuals REnd (fst position) (snd position))
             (residuals (RChars literal) b s))
  = String.eqb s literal || String.eqb s (literal +:+ LF).
Proof.
  cbn [residuals]. destruct (strip_prefix literal s) as [r|] eqn:Hstrip.
  - apply strip_prefix_Some in Hstrip as ->. cbn [flat_map fst snd residuals].
    rewrite app_nil_r.
    assert ((literal +:+ r =? literal)%string = (r =? "")%string) as ->.
    { destruct (String.eqb_spec r "") as [->|Hne].
      - rewrite string_app_nil_r. apply String.eqb_refl.
      - apply String.eqb_neq. intros Heq. apply Hne.
        apply (string_app_inj_l literal). by rewrite string_app_nil_r. }
    assert ((literal +:+ r =? literal +:+ LF)%string = (r =? LF)%string) as ->.
    { destruct (String.eqb_spec r LF) as [->|Hne].
      - apply String.eqb_refl.
      - apply String.eqb_neq. intros Heq. apply Hne. by apply (string_app_inj_l literal). }
    by destruct (r =? "")%string, (r =? LF)%string.
  - cbn. symmetry. apply orb_false_iff. split; apply String.eqb_neq; intros ->.
    + rewrite <- (string_app_nil_r literal) in Hstrip at 2.
      by rewrite (proj2 (strip_prefix_Some literal _ "") eq_refl) in Hstrip.
    + by rewrite (proj2 (strip_prefix_Some literal _ LF) eq_refl) in Hstrip.
Qed.

Lemma re_match_service_level s :
  re_match service_level_pattern s
  = (String.eqb s "Ultra" || String.eqb s ("Ultra" +:+ LF)
     || String.eqb s "Premium" || String.eqb s ("Premium" +:+ LF)
     || String.eqb s "Standard" || String.eqb s ("Standard" +:+ LF)
     || String.eqb s "StandardZRS" || String.eqb s ("StandardZRS" +:+ LF)).
Proof.
  unfold re_match, service_level_pattern.
  rewrite residuals_seq.
  change (residuals RBegin true s) with [(true, s)].
  cbn [flat_map fst snd]. rewrite app_nil_r.
  rewrite residuals_seq, !residuals_alt, !flat_map_app, !matched_app, !literal_then_end.
  by rewrite !orb_assoc.
Qed.

(** X7. Matched as Python's [re.match] does it, the pattern
    [^(Ultra|Premium|Standard|StandardZRS)$] of [PoolSpec.service_level]
    accepts the four names and each of them followed by one line feed,
    since [$] also matches before a final line feed, and no other string.
    The check [PoolSpec] makes is a positive size and a match of this
    pattern. *)
Theorem service_level_pattern_accepts_exactly :
  (∀ s : string,
     re_match service_level_pattern s = true
     ↔ s ∈ ["Ultra"; "Premium"; "Standard"; "StandardZRS";
            "Ultra" +:+ LF; "Premium" +:+ LF; "Standard" +:+ LF; "StandardZRS" +:+ LF])
  ∧ (∀ spec : Complete.Pools.PoolSpec,
       Complete.Pools.PoolSpec_valid spec
       = (0 <? Complete.Pools.size_tb spec)
         && re_match service_level_pattern (Complete.Pools.service_level spec)).
Proof.
  split.
  - intros s. rewrite re_match_service_level, !orb_true_iff, !String.eqb_eq,
      !elem_of_cons, elem_of_nil. tauto.
  - intros spec. unfold Complete.Pools.PoolSpec_valid. f_equal.
    rewrite re_match_service_level.
    unfold re_match_alternatives, Complete.Pools.service_levels. cbn [existsb].
    by rewrite !orb_false_r, !orb_assoc.
Qed.

(** X8. [POST /pools/] of the [anf_aiops_complete] router with a body that
    breaks a constraint never reaches the handler: the trace is empty and
    the answer is 422, or 401 when the key presented is wrong, since the
    key is checked before the body. *)
Theorem invalid_pool_spec_is_rejected environ azure x_api_key spec wait :
  Complete.Pools.PoolSpec_valid spec = false →
  run (Complete.Pools.post_pools environ azure x_api_key spec wait)
  = (inl (match x_api_key with
          | Some key => if bool_decide (key = Complete.Pools.API_KEY environ)
                        then RequestValidationError
                        else HTTPException 401 "Invalid API Key"
          | None => RequestValidationError
          end), []).
Proof.
  intros Hinvalid. unfold Complete.Pools.post_pools, Depends, Header_required,
    Complete.Pools.verify_key, Complete.Pools.validate.
  rewrite Hinvalid. destruct x_api_key as [key|]; step_handler; [|done].
  destruct (decide (key = Complete.Pools.API_KEY environ)) as [Heq|Hne].
  - by rewrite bool_decide_eq_false_2, bool_decide_eq_true_2 by auto.
  - by rewrite bool_decide_eq_true_2, bool_decide_eq_false_2 by auto.
Qed.

Lemma invalid_pool_spec_is_rejected_witness :
  run (Complete.Pools.post_pools ∅ azure_ok (Some "changeme") (as_PoolSpec bogus_pool) false)
  = (inl RequestValidationError, []).
Proof.
  exact (invalid_pool_spec_is_rejected ∅ azure_ok (Some "changeme") (as_PoolSpec bogus_pool) false
           eq_refl).
Defined.

(** X9. A valid [PoolSpec] presented with the configured key is submitted
    once, with its size converted from TiB to bytes: the body sent has
    ["size"] equal to [size_tb * 1099511627776], at least one TiB, the
    service level under ["sku"]["name"] and the region under ["location"]. *)
Theorem valid_pool_spec_is_submitted_in_bytes environ azure spec wait :
  Complete.Pools.PoolSpec_valid spec = true →
  ∃ params,
    sent_bodies (snd (run (Complete.Pools.post_pools environ azure
                             (Some (Complete.Pools.API_KEY environ)) spec wait))) = [params]
    ∧ get params "size" = Some (JInt (Complete.Pools.size_tb spec * 1099511627776))
    ∧ 1099511627776 ≤ Complete.Pools.size_tb spec * 1099511627776
    ∧ get params "sku" = Some (dict [("name", JStr (Complete.Pools.service_level spec))])
    ∧ get params "location" = Some (JStr (Complete.Pools.location spec)).
Proof.
  intros Hvalid.
  assert (run (Complete.Pools.post_pools environ azure
                 (Some (Complete.Pools.API_KEY environ)) spec wait)
          = run (invoke environ azure (complete_create_pool spec) wait)) as ->.
  { unfold Complete.Pools.post_pools, Depends, Header_required, Complete.Pools.verify_key.
    unfold run, mbind, M_bind, mret, M_ret; cbn.
    by rewrite bool_decide_eq_false_2 by (intros Hne; by apply Hne). }
  rewrite invoke_facade by done. eexists. split.
  - unfold facade. destruct (begin_operation azure _) as [err|p]; [done|].
    destruct wait; [by destruct (result p) | done].
  - apply PoolSpec_valid_iff in Hvalid as [Hsize _].
    split; [done|]. split; [lia|]. done.
Qed.

Lemma valid_pool_spec_is_submitted_in_bytes_witness :
  ∃ params,
    sent_bodies (snd (run (Complete.Pools.post_pools ∅ azure_ok
                             (Some (Complete.Pools.API_KEY ∅))
                             {| Complete.Pools.account := "acct"; Complete.Pools.pool := "pool1";
                                Complete.Pools.location := "eastus"; Complete.Pools.size_tb := 4;
                                Complete.Pools.service_level := "Premium" |} true))) = [params]
    ∧ get params "size" = Some (JInt (4 * 1099511627776))
    ∧ 1099511627776 ≤ 4 * 1099511627776
    ∧ get params "sku" = Some (dict [("name", JStr "Premium")])
    ∧ get params "location" = Some (JStr "eastus").
Proof.
  apply (valid_pool_spec_is_submitted_in_bytes ∅ azure_ok
           {| Complete.Pools.account := "acct"; Complete.Pools.pool := "pool1";
              Complete.Pools.location := "eastus"; Complete.Pools.size_tb := 4;
              Complete.Pools.service_level := "Premium" |} true).
  reflexivity.
Defined.

(** ** The patch [update_pool] sends *)

Lemma patch_body_size new_size_tb service_level :
  patch_body new_size_tb service_level !! "size"
  = match new_size_tb with
    | Some n => if n =? 0 then None else Some (JInt (n * 1099511627776))
    | None => None
    end.
Proof.
  unfold patch_body.
  destruct new_size_tb as [n|], service_level as [sl|]; cbn;
    repeat match goal with
           | |- context [n =? 0] => destruct (n =? 0); cbn
           | |- context [String.eqb sl ""] => destruct (String.eqb sl ""); cbn
           end; by simplify_map_eq.
Qed.

Lemma patch_body_sku new_size_tb service_level :
  patch_body new_size_tb service_level !! "sku"
  = match service_level with
    | Some sl => if String.eqb sl "" then None else Some (dict [("name", JStr sl)])
    | None => None
    end.
Proof.
  unfold patch_body.
  destruct new_size_tb as [n|], service_level as [sl|]; cbn;
    repeat match goal with
           | |- context [n =? 0] => destruct (n =? 0); cbn
           | |- context [String.eqb sl ""] => destruct (String.eqb sl ""); cbn
           end; by simplify_map_eq.
Qed.

Lemma patch_body_empty new_size_tb service_level :
  patch_body new_size_tb service_level = ∅
  ↔ truthy_int new_size_tb = false ∧ truthy_str service_level = false.
Proof.
  unfold patch_body.
  destruct new_size_tb as [n|], service_level as [sl|]; cbn;
    repeat match goal with
           | |- context [n =? 0] => destruct (n =? 0); cbn
           | |- context [String.eqb sl ""] => destruct (String.eqb sl ""); cbn
           end;
    split; try done; try (intros [? ?]; done);
    intros Hempty; by apply insert_non_empty in Hempty.
Qed.

Lemma patch_body_keys new_size_tb service_level key :
  is_Some (patch_body new_size_tb service_level !! key) → key = "size" ∨ key = "sku".
Proof.
  unfold patch_body.
  destruct new_size_tb as [n|], service_level as [sl|]; cbn;
    repeat match goal with
           | |- context [n =? 0] => destruct (n =? 0); cbn
           | |- context [String.eqb sl ""] => destruct (String.eqb sl ""); cbn
           end;
    rewrite ?lookup_insert_is_Some, ?lookup_empty; intros H;
    repeat match goal with
           | H : _ ∨ _ |- _ => destruct H
           | H : _ ∧ _ |- _ => destruct H
           | H : is_Some None |- _ => by apply is_Some_None in H
           end; auto.
Qed.

(** X10. An [update_pool] request that names at least one field is
    submitted once, in either copy of the router, with a patch that holds
    ["size"] (in bytes) only for a non-zero size, ["sku"] only for a
    non-empty service level, and no other key. The patch is the empty
    object exactly when the size is absent or 0 and the level is absent or
    the empty string. *)
Theorem update_pool_patch environ azure account pool new_size_tb service_level wait :
  ¬ (new_size_tb = None ∧ service_level = None) →
  ∃ patch : gmap string Json,
    sent_bodies (snd (run (McpServer.Pools.update_pool environ azure account pool
                             new_size_tb service_level wait))) = [JDict patch]
    ∧ sent_bodies (snd (run (Complete.Pools.update_pool environ azure account pool
                               new_size_tb service_level wait))) = [JDict patch]
    ∧ patch !! "size" = match new_size_tb with
                        | Some n => if n =? 0 then None else Some (JInt (n * 1099511627776))
                        | None => None
                        end
    ∧ patch !! "sku" = match service_level with
                       | Some sl => if String.eqb sl "" then None
                                    else Some (dict [("name", JStr sl)])
                       | None => None
                       end
    ∧ (∀ key, is_Some (patch !! key) → key = "size" ∨ key = "sku")
    ∧ (patch = ∅ ↔ (new_size_tb = None ∨ new_size_tb = Some 0)
                   ∧ (service_level = None ∨ service_level = Some "")).
Proof.
  intros Hsome. exists (patch_body new_size_tb service_level).
  assert (passes_validation (root_update_pool account pool new_size_tb service_level) = true)
    as Hvalid.
  { cbn. apply negb_true_iff, andb_false_iff.
    destruct new_size_tb, service_level; cbn; auto. by destruct Hsome. }
  pose proof (invoke_facade environ azure
                (root_update_pool account pool new_size_tb service_level) wait Hvalid) as Hroot.
  pose proof (invoke_facade environ azure
                (complete_update_pool account pool new_size_tb service_level) wait Hvalid)
    as Hcomplete.
  change (run (McpServer.Pools.update_pool environ azure account pool new_size_tb service_level wait)
          = facade (McpServer.Pools.SUBSCRIPTION_ID environ) azure
              (pools_begin_create_or_update (McpServer.Pools.RESOURCE_GROUP environ) account pool
                 (JDict (patch_body new_size_tb service_level))) wait as_dict) in Hroot.
  change (run (Complete.Pools.update_pool environ azure account pool new_size_tb service_level wait)
          = facade (Some (Complete.Pools.SUBSCRIPTION_ID environ)) azure
              (pools_begin_create_or_update (Some (Complete.Pools.RESOURCE_GROUP environ))
                 account pool (JDict (patch_body new_size_tb service_level))) wait as_dict)
    in Hcomplete.
  rewrite Hroot, Hcomplete.
  split; [|split].
  - unfold facade. destruct (begin_operation azure _) as [err|p]; [done|].
    destruct wait; [by destruct (result p) | done].
  - unfold facade. destruct (begin_operation azure _) as [err|p]; [done|].
    destruct wait; [by destruct (result p) | done].
  - split; [apply patch_body_size|]. split; [apply patch_body_sku|].
    split; [apply patch_body_keys|].
    rewrite patch_body_empty.
    destruct new_size_tb as [n|], service_level as [sl|]; cbn;
      rewrite ?negb_false_iff, ?Z.eqb_eq, ?String.eqb_eq;
      intuition (try discriminate; try congruence).
Qed.

Lemma update_pool_patch_witness :
  ∃ patch : gmap string Json,
    sent_bodies (snd (run (McpServer.Pools.update_pool ∅ azure_ok "acct" "pool1"
                             (Some 8) (Some "") false))) = [JDict patch]
    ∧ sent_bodies (snd (run (Complete.Pools.update_pool ∅ azure_ok "acct" "pool1"
                               (Some 8) (Some "") false))) = [JDict patch]
    ∧ patch !! "size" = Some (JInt (8 * 1099511627776))
    ∧ patch !! "sku" = None
    ∧ (∀ key, is_Some (patch !! key) → key = "size" ∨ key = "sku")
    ∧ (patch = ∅ ↔ (Some 8 = None ∨ Some 8 = Some 0)
                   ∧ (Some "" = None ∨ Some "" = Some "")).
Proof.
  refine (update_pool_patch ∅ azure_ok "acct" "pool1" (Some 8) (Some "") false _).
  intros [Hsize _]. discriminate Hsize.
Defined.

(** ** The minimal server *)

(** X11. In [mcp-server/app.py] nothing catches the SDK's exception: a
    failure of the submission, of the operation, or of the listing leaves
    the endpoint as an unhandled [HttpResponseError], which is answered
    with 500 whatever status the control plane reported. *)
Theorem minimal_server_lets_sdk_errors_escape environ azure err :
  (∀ account_name location,
     let op := accounts_begin_create_or_update (MinimalServer.RESOURCE_GROUP environ)
                 account_name (dict [("location", JStr location)]) in
     begin_operation azure op = inl err
     ∨ (∃ poller, begin_operation azure op = inr poller ∧ result poller = inl err) →
     fst (run (MinimalServer.create_account environ azure account_name location))
     = inl (SdkError err)
     ∧ fst (fst (MinimalServer.app environ azure (Some (MinimalServer.API_KEY environ))
                   (MinimalServer.POST_accounts account_name location))) = 500)
  ∧ (list_items azure (accounts_list (MinimalServer.RESOURCE_GROUP environ)) = inl err →
     fst (run (MinimalServer.list_accounts environ azure)) = inl (SdkError err)
     ∧ fst (fst (MinimalServer.app environ azure (Some (MinimalServer.API_KEY environ))
                   MinimalServer.GET_accounts)) = 500).
Proof.
  split.
  - intros account_name location op Hfail.
    unfold MinimalServer.app, MinimalServer.endpoint, Depends, Header_required,
      MinimalServer.verify_key, MinimalServer.create_account, MinimalServer.get_client.
    step_handler. rewrite bool_decide_eq_false_2 by (intros Hne; by apply Hne). cbn.
    fold op. destruct Hfail as [Hsync | (poller & Hbegin & Hresult)].
    + by rewrite Hsync.
    + rewrite Hbegin; cbn. by rewrite Hresult.
  - intros Hfail.
    unfold MinimalServer.app, MinimalServer.endpoint, Depends, Header_required,
      MinimalServer.verify_key, MinimalServer.list_accounts, MinimalServer.get_client.
    step_handler. rewrite bool_decide_eq_false_2 by (intros Hne; by apply Hne). cbn.
    by rewrite Hfail.
Qed.

Lemma minimal_server_lets_sdk_errors_escape_witness :
  fst (run (MinimalServer.create_account ∅ azure_failing_later "acct" "eastus"))
  = inl (SdkError conflict)
  ∧ fst (run (MinimalServer.list_accounts ∅ azure_rejecting)) = inl (SdkError conflict).
Proof.
  split.
  - refine (proj1 (proj1 (minimal_server_lets_sdk_errors_escape ∅ azure_failing_later conflict)
                     "acct" "eastus" _)).
    right. exists doomed. split; reflexivity.
  - refine (proj1 (proj2 (minimal_server_lets_sdk_errors_escape ∅ azure_rejecting conflict) _)).
    reflexivity.
Defined.

(** X12. The minimal server's [create_account] has no [wait] switch: once
    the submission is accepted it always blocks on the poller, never reads
    a polling reference, and a successful operation is answered 200 with
    the final resource. The body submitted is [{"location": location}]. *)
Theorem minimal_create_account_always_waits environ azure account_name location poller :
  begin_operation azure
    (accounts_begin_create_or_update (MinimalServer.RESOURCE_GROUP environ) account_name
       (dict [("location", JStr location)])) = inr poller →
  snd (run (MinimalServer.create_account environ azure account_name location))
  = [EvClient (MinimalServer.SUBSCRIPTION_ID environ);
     EvCall (accounts_begin_create_or_update (MinimalServer.RESOURCE_GROUP environ) account_name
               (dict [("location", JStr location)]));
     EvResult]
  ∧ (∀ r, result poller = inr r →
       MinimalServer.app environ azure (Some (MinimalServer.API_KEY environ))
         (MinimalServer.POST_accounts account_name location)
       = (200, inr (as_dict r),
          [EvClient (MinimalServer.SUBSCRIPTION_ID environ);
           EvCall (accounts_begin_create_or_update (MinimalServer.RESOURCE_GROUP environ)
                     account_name (dict [("location", JStr location)]));
           EvResult])).
Proof.
  intros Hbegin. split.
  - unfold MinimalServer.create_account, MinimalServer.get_client. step_handler.
    rewrite Hbegin; cbn. by destruct (result poller).
  - intros r Hresult.
    unfold MinimalServer.app, MinimalServer.endpoint, Depends, Header_required,
      MinimalServer.verify_key, MinimalServer.create_account, MinimalServer.get_client.
    step_handler. rewrite bool_decide_eq_false_2 by (intros Hne; by apply Hne). cbn.
    rewrite Hbegin; cbn. by rewrite Hresult.
Qed.

Lemma minimal_create_account_always_waits_witness :
  MinimalServer.app ∅ azure_ok (Some (MinimalServer.API_KEY ∅))
    (MinimalServer.POST_accounts "acct" "eastus")
  = (200, inr (as_dict pool1),
     [EvClient (MinimalServer.SUBSCRIPTION_ID ∅);
      EvCall (accounts_begin_create_or_update (MinimalServer.RESOURCE_GROUP ∅)
                "acct" (dict [("location", JStr "eastus")]));
      EvResult]).
Proof.
  refine (proj2 (minimal_create_account_always_waits ∅ azure_ok "acct" "eastus" accepted _)
            pool1 _); reflexivity.
Defined.

(** ** Configuration read at import *)



(** ** The copies of a router against each other *)



Lemma facade_sent_bodies sub azure op wait fin :
  sent_bodies (snd (facade sub azure op wait fin)) = option_list (body_of op).
Proof.
  unfold facade, sent_bodies. destruct (begin_operation azure op) as [err|p]; cbn.
  - by destruct (body_of op).
  - destruct wait; [destruct (result p)|]; cbn; by destruct (body_of op).
Qed.

(** X15. The two accounts routers submit the same body for the same
    request only when it carries a non-empty [active_directory]. Without
    one, [mcp_server] sends ["properties": {"activeDirectories": []}] and
    [anf_aiops_full] sends ["properties": {}]. *)
Theorem accounts_routers_agree_only_with_active_directory environ azure
    (body : McpServer.Accounts.AccountCreateBody) (wait : bool) :
  (sent_bodies (snd (run (McpServer.Accounts.create_account environ azure body wait)))
   = sent_bodies (snd (run (Full.Accounts.create_account environ azure (as_Full_body body) wait)))
   ↔ truthy_dict (McpServer.Accounts.active_directory body) = true)
  ∧ (truthy_dict (McpServer.Accounts.active_directory body) = false →
     sent_bodies (snd (run (McpServer.Accounts.create_account environ azure body wait)))
     = [dict [("location", JStr (McpServer.Accounts.location body));
              ("properties", dict [("activeDirectories", JList [])])]]
     ∧ sent_bodies (snd (run (Full.Accounts.create_account environ azure (as_Full_body body) wait)))
       = [dict [("location", JStr (McpServer.Accounts.location body));
                ("properties", dict [])]]).
Proof.
  pose proof (invoke_facade environ azure (root_create_account body) wait eq_refl) as Hroot.
  pose proof (invoke_facade environ azure (full_create_account (as_Full_body body)) wait eq_refl)
    as Hfull.
  change (invoke environ azure (root_create_account body) wait)
    with (McpServer.Accounts.create_account environ azure body wait) in Hroot.
  change (invoke environ azure (full_create_account (as_Full_body body)) wait)
    with (Full.Accounts.create_account environ azure (as_Full_body body) wait) in Hfull.
  rewrite Hroot, Hfull, !facade_sent_bodies. cbn.
  destruct (truthy_dict (McpServer.Accounts.active_directory body)) eqn:Had.
  - split; [|done]. split; [done|]. intros _. done.
  - split; [|done]. split; [|done]. intros Heq.
    apply (f_equal (λ l, head l ≫= λ j, get j "properties" ≫= λ p, get p "activeDirectories"))
      in Heq.
    vm_compute in Heq. discriminate Heq.
Qed.

Lemma accounts_routers_agree_only_with_active_directory_witness :
  sent_bodies (snd (run (McpServer.Accounts.create_account ∅ azure_ok
                           {| McpServer.Accounts.name := "acct";
                              McpServer.Accounts.location := "eastus";
                              McpServer.Accounts.active_directory := None |} false)))
  = [dict [("location", JStr "eastus");
           ("properties", dict [("activeDirectories", JList [])])]]
  ∧ sent_bodies (snd (run (Full.Accounts.create_account ∅ azure_ok
                             (as_Full_body
                                {| McpServer.Accounts.name := "acct";
                                   McpServer.Accounts.location := "eastus";
                                   McpServer.Accounts.active_directory := None |}) false)))
    = [dict [("location", JStr "eastus"); ("properties", dict [])]].
Proof.
  refine (proj2 (accounts_routers_agree_only_with_active_directory ∅ azure_ok
                   {| McpServer.Accounts.name := "acct";
                      McpServer.Accounts.location := "eastus";
                      McpServer.Accounts.active_directory := None |} false) _).
  reflexivity.
Defined.

(** ** The thin client's constructor *)

(** X16. The key a client ends up with is never the empty string. An
    explicit non-empty key wins; otherwise a non-empty [MCP_API_KEY]; an
    empty string in either place counts as absent and falls through, in
    the end to ["changeme"]. *)
Theorem client_api_key_is_never_empty environ base_url (api_key : option string) timeout :
  Client.api_key (Client.__init__ environ base_url api_key timeout) ≠ ""
  ∧ (∀ key, api_key = Some key → key ≠ "" →
       Client.api_key (Client.__init__ environ base_url api_key timeout) = key)
  ∧ (api_key = None ∨ api_key = Some "" →
     (∀ key, environ !! "MCP_API_KEY" = Some key → key ≠ "" →
        Client.api_key (Client.__init__ environ base_url api_key timeout) = key)
     ∧ (environ !! "MCP_API_KEY" = None ∨ environ !! "MCP_API_KEY" = Some "" →
        Client.api_key (Client.__init__ environ base_url api_key timeout) = "changeme")).
Proof.
  unfold Client.__init__, getenv; cbn.
  assert (∀ s : string, s ≠ "" → String.eqb s "" = false) as Hne
    by (intros s; apply String.eqb_neq).
  assert (∀ s : string, String.eqb s "" = true → s = "") as Heq
    by (intros s; apply String.eqb_eq).
  split; [|split].
  - unfold or_else, truthy_str.
    destruct api_key as [k|]; [destruct (String.eqb k "") eqn:Hk; cbn|];
      try (intros ->; discriminate);
      (destruct (environ !! "MCP_API_KEY") as [e|];
       [destruct (String.eqb e "") eqn:He; cbn|]); try done;
      intros ->; discriminate.
  - intros key -> Hkey. unfold or_else at 1, truthy_str. by rewrite (Hne key Hkey).
  - intros Habsent. assert (truthy_str api_key = false) as Hfalsy
      by (by destruct Habsent as [-> | ->]).
    assert (∀ b, or_else api_key b = b) as Hskip.
    { intros b. unfold or_else. destruct api_key as [k|]; [|done].
      by rewrite Hfalsy. }
    rewrite Hskip. split.
    + intros key -> Hkey. unfold or_else, truthy_str. by rewrite (Hne key Hkey).
    + by intros [-> | ->].
Qed.

Lemma client_api_key_is_never_empty_witness :
  Client.api_key (Client.__init__ {["MCP_API_KEY" := "from-env"]} "http://h" (Some "") 30)
  = "from-env".
Proof.
  refine (proj1 (proj2 (proj2 (client_api_key_is_never_empty
                                 {["MCP_API_KEY" := "from-env"]} "http://h" (Some "") 30)) _)
            "from-env" _ _).
  - right. reflexivity.
  - reflexivity.
  - discriminate.
Defined.

Lemma rstrip_spec (c : Ascii.ascii) (s : string) :
  last_char (rstrip c s) ≠ Some c ∧ ∃ n, s = rstrip c s +:+ repeat_char c n.
Proof.
  induction s as [|a rest [IHlast [n IHn]]]; cbn.
  - split; [done|]. by exists 0%nat.
  - destruct (rstrip c rest) as [|b kept] eqn:Hrest.
    + destruct (Ascii.eqb a c) eqn:Hac; cbn.
      * apply Ascii.eqb_eq in Hac as ->. split; [done|].
        exists (S n). cbn. by rewrite IHn at 1.
      * apply Ascii.eqb_neq in Hac. split; [congruence|].
        exists n. cbn. by rewrite IHn at 1.
    + split; [exact IHlast|]. exists n. cbn. cbn in IHn. by rewrite IHn at 1.
Qed.

(** X17. The constructor removes every trailing ["/"] from the base URL and
    nothing else: the stored URL does not end in ["/"], and the URL given
    is the stored one followed by some number of slashes. *)
Theorem client_base_url_loses_trailing_slashes environ base_url api_key timeout :
  last_char (Client.base_url (Client.__init__ environ base_url api_key timeout)) ≠ Some "/"%char
  ∧ ∃ n, base_url
         = Client.base_url (Client.__init__ environ base_url api_key timeout)
           +:+ repeat_char "/"%char n.
Proof. apply rstrip_spec. Qed.

(** ** The thin client's failures other than [ApiError] *)

Section ThinClientFailures.
Variable requests_request : Client.HttpRequest → option Client.HttpResponse.
Variable json_loads : string → option Json.

(** X18. Two failures of [_request] are not turned into [ApiError]: when
    the transport raises, its exception passes through, and when a
    response below 400 has a body that does not decode as JSON, the
    decoder's error does. Either way the request went out once. *)
Theorem request_failures_that_are_not_ApiError
    (self : Client.AnfMcpClient) (method path : string) (json : option Json) :
  let req := {| Client.req_method := method;
                Client.req_url := Client.base_url self +:+ path;
                Client.req_headers := {["x-api-key" := Client.api_key self]};
                Client.req_timeout := Client.timeout self;
                Client.req_json := json |} in
  (requests_request req = None →
   run (Client._request requests_request json_loads self method path json)
   = (inl Client.RequestException, [req]))
  ∧ (∀ resp, requests_request req = Some resp →
       Client.status_code resp < 400 →
       json_loads (Client.text resp) = None →
       run (Client._request requests_request json_loads self method path json)
       = (inl Client.JSONDecodeError, [req])).
Proof.
  intros req. unfold Client._request, Client._headers. fold req.
  unfold run, emit, lift, raise, mbind, M_bind; cbn. split.
  - by intros ->.
  - intros resp -> Hstatus Hjson; cbn.
    rewrite bool_decide_eq_false_2 by lia. by rewrite Hjson.
Qed.

(** X19. [create_account] of the client posts, to [base_url + "/accounts"],
    a JSON object with exactly the keys ["account_name"] and ["location"].
    It has no ["name"] key, which both [AccountCreateBody] models require. *)
Theorem client_create_account_payload (self : Client.AnfMcpClient) (name location : string) :
  ∃ payload : gmap string Json,
    snd (run (Client.create_account requests_request json_loads self name location))
    = [{| Client.req_method := "POST";
          Client.req_url := Client.base_url self +:+ "/accounts";
          Client.req_headers := {["x-api-key" := Client.api_key self]};
          Client.req_timeout := Client.timeout self;
          Client.req_json := Some (JDict payload) |}]
    ∧ dom payload = {["account_name"; "location"]}
    ∧ payload !! "account_name" = Some (JStr name)
    ∧ payload !! "location" = Some (JStr location)
    ∧ ∃ field, field ∈ AccountCreateBody_required ∧ payload !! field = None.
Proof.
  exists (list_to_map [("account_name", JStr name); ("location", JStr location)]).
  split; [|split; [|split; [|split]]].
  - unfold Client.create_account, Client._request, Client._headers.
    unfold run, emit, lift, raise, mbind, M_bind; cbn.
    destruct (requests_request _) as [resp|]; cbn; [|done].
    case_bool_decide; cbn; [done|]. by destruct (json_loads (Client.text resp)).
  - cbn. rewrite !dom_insert_L, dom_empty_L. set_solver.
  - done.
  - done.
  - exists "name". split; [|done].
    unfold AccountCreateBody_required. rewrite elem_of_cons. by left.
Qed.

End ThinClientFailures.

Lemma request_failures_that_are_not_ApiError_witness :
  run (Client._request answers_200 (λ _, None)
         (Client.__init__ ∅ "http://localhost:8000" None 30) "GET" "/accounts" None)
  = (inl Client.JSONDecodeError,
     [{| Client.req_method := "GET";
         Client.req_url := "http://localhost:8000/accounts";
         Client.req_headers := {["x-api-key" := "changeme"]};
         Client.req_timeout := 30;
         Client.req_json := None |}]).
Proof.
  refine (proj2 (request_failures_that_are_not_ApiError answers_200 (λ _, None)
                   (Client.__init__ ∅ "http://localhost:8000" None 30) "GET" "/accounts" None)
            {| Client.status_code := 200; Client.text := "[]" |} _ _ _).
  - reflexivity.
  - cbn. lia.
  - reflexivity.
Defined.

(** ** Client and server in one environment *)

(** X20. A client built without a key, in the environment the server was
    started in, is let through by the server's key check unless
    [MCP_API_KEY] is set to the empty string: then the server expects the
    empty key while the client falls back to ["changeme"], and is answered
    401. *)
Theorem default_client_against_server (environ : gmap string string) base_url timeout :
  let self := Client.__init__ environ base_url None timeout in
  let presented := Client._headers self !! "x-api-key" in
  (environ !! "MCP_API_KEY" ≠ Some "" →
   run (Depends (McpServer.Pools.verify_key environ) presented) = (inr tt, []))
  ∧ (environ !! "MCP_API_KEY" = Some "" →
     run (Depends (McpServer.Pools.verify_key environ) presented)
     = (inl (HTTPException 401 "Invalid API Key"), [])).
Proof.
  intros self presented. subst self presented.
  unfold Client._headers, Client.__init__, getenv, McpServer.Pools.verify_key,
    McpServer.Pools.API_KEY, getenv_default, Depends, Header_required; cbn.
  rewrite lookup_singleton_eq. step_handler.
  destruct (environ !! "MCP_API_KEY") as [key|] eqn:Henv; cbn.
  - unfold or_else, truthy_str. destruct (String.eqb key "") eqn:Hkey; cbn.
    + apply String.eqb_eq in Hkey as ->. split; [done|]. intros _.
      by rewrite bool_decide_eq_true_2.
    + split; [|intros [= ->]; discriminate]. intros _.
      by rewrite bool_decide_eq_false_2 by (intros Hne; by apply Hne).
  - split; [|done]. intros _.
    by rewrite bool_decide_eq_false_2 by (intros Hne; by apply Hne).
Qed.

Lemma default_client_against_server_witness :
  run (Depends (McpServer.Pools.verify_key {["MCP_API_KEY" := ""]})
         (Client._headers (Client.__init__ {["MCP_API_KEY" := ""]} "http://h" None 30)
            !! "x-api-key"))
  = (inl (HTTPException 401 "Invalid API Key"), []).
Proof.
  refine (proj2 (default_client_against_server {["MCP_API_KEY" := ""]} "http://h" 30) _).
  reflexivity.
Defined.
